(** * Instruction fine-tuning notebook: loader, prompt formatter, provisioning

    A shallow embedding of the code cells of
    [Instruction Finetuning LLMs with QLoRA for RAG.ipynb]:
    - [load_modified_dataset] (pandas filtering of the dolly records),
    - [format_instruction] (the f-string prompt template),
    - the provisioning cell (quantisation config, model, tokenizer),
    - the adapter cell and the construction of the trainer.

    Python values are a small tagged union, dicts are [gmap string pyval],
    raised exceptions are the [Raise] case of [result], and the module-level
    variables of the notebook are an explicit state threaded by the [Py]
    monad.  The third-party libraries (datasets, transformers, peft, trl)
    are an interface, [Libs], over which everything is parametric. *)

From Stdlib Require Import String Ascii ZArith QArith List Bool.
From stdpp Require Import base option list strings gmap pretty.

Local Open Scope string_scope.
Local Open Scope Z_scope.

(** ** Python values and exceptions *)

Inductive pyval :=
  | VNone
  | VBool (b : bool)
  | VInt (z : Z)
  | VStr (s : string).

#[global] Instance pyval_eq_dec : EqDecision pyval.
Proof. solve_decision. Defined.

(** [KeyError key] is the error of a lookup by one key, with the key as
    its argument.  [KeyErrorNotInIndex missing] is the [KeyError] of a frame
    indexed by a list of column names: its argument is a message that names
    the columns asked for and not there, all of them, in the order asked. *)
Inductive pyerr :=
  | KeyError (key : string)
  | KeyErrorNotInIndex (missing : list string)
  | NameError (name : string)
  | TypeError (what : string)
  | IndexingError (what : string)
  | LibraryError (what : string).

Inductive result (A : Type) :=
  | Ok (a : A)
  | Raise (e : pyerr).
Arguments Ok {A} a.
Arguments Raise {A} e.

#[global] Instance result_ret : MRet result := @Ok.
#[global] Instance result_bind : MBind result := λ A B f m,
  match m with
  | Ok a => f a
  | Raise e => Raise e
  end.

(** The line feed the triple-quoted template contains at each line end. *)
Definition LF : string := String (ascii_of_nat 10) "".

(** [str(v)], which is what an f-string field without format spec inserts. *)
Definition py_str (v : pyval) : string :=
  match v with
  | VNone => "None"
  | VBool true => "True"
  | VBool false => "False"
  | VInt z => pretty z
  | VStr s => s
  end.

(** A dict with string keys; [d[k]] raises [KeyError] on a missing key. *)
Abbreviation Row := (gmap string pyval).

Definition dict_getitem (d : Row) (k : string) : result pyval :=
  match d !! k with
  | Some v => Ok v
  | None => Raise (KeyError k)
  end.

(** ** Tables: [datasets.Dataset], [pandas.DataFrame], [pandas.Series] *)

(** An Arrow-backed dataset: its column names and its rows. *)
Record Dataset := mkDataset {
  features : list string;
  ds_rows : list Row
}.

(** A frame keeps an index label next to every row. *)
Record DataFrame := mkDataFrame {
  df_columns : list string;
  df_rows : list (Z * Row)
}.

(** A column taken out of a frame.  Every series below is a column of one
    and the same frame, so index alignment is positional. *)
Abbreviation Series := (list pyval).

Definition with_index (rows : list Row) : list (Z * Row) :=
  imap (λ i r, (Z.of_nat i, r)) rows.

(** [dataset.to_pandas()]: same columns, a fresh [RangeIndex]. *)
Definition to_pandas (d : Dataset) : DataFrame :=
  {| df_columns := features d; df_rows := with_index (ds_rows d) |}.

(** [df[col] = v] with a scalar [v]: the column is overwritten when it
    exists and appended otherwise; every row gets the same value. *)
Definition df_setitem (df : DataFrame) (col : string) (v : pyval) : DataFrame :=
  {| df_columns := if bool_decide (col ∈ df_columns df) then df_columns df
                   else df_columns df ++ [col];
     df_rows := prod_map id (<[col := v]>) <$> df_rows df |}.

(** [df[col]]: [KeyError] when there is no such column.  A cell missing
    from a row reads as a missing value. *)
Definition df_getitem (df : DataFrame) (col : string) : result Series :=
  if bool_decide (col ∈ df_columns df)
  then Ok ((λ ir, default VNone (ir.2 !! col)) <$> df_rows df)
  else Raise (KeyError col).

(** [s.isin(values)]: a boolean series. *)
Definition isin (s : Series) (values : list pyval) : Series :=
  (λ v, VBool (bool_decide (v ∈ values))) <$> s.

(** [a & b] on two values of a boolean series. *)
Definition py_and (a b : pyval) : result pyval :=
  match a, b with
  | VBool x, VBool y => Ok (VBool (x && y))
  | _, _ => Raise (TypeError "unsupported operand type(s) for &")
  end.

(** [a & b] on two series, element by element. *)
Fixpoint series_and (a b : Series) : result Series :=
  match a, b with
  | [], [] => Ok []
  | x :: a', y :: b' =>
      z ← py_and x y;
      rest ← series_and a' b';
      mret (z :: rest)
  | _, _ => Raise (IndexingError "operands are not aligned")
  end.

(** [df[mask]] with a boolean series: the rows where the mask holds, with
    their index labels. *)
Fixpoint select_rows (rows : list (Z * Row)) (mask : Series)
  : result (list (Z * Row)) :=
  match rows, mask with
  | [], [] => Ok []
  | r :: rows', VBool b :: mask' =>
      rest ← select_rows rows' mask';
      mret (if b then r :: rest else rest)
  | _ :: _, _ :: _ => Raise (TypeError "mask is not boolean")
  | _, _ => Raise (IndexingError "Unalignable boolean Series provided as indexer")
  end.

Definition df_getitem_mask (df : DataFrame) (mask : Series) : result DataFrame :=
  rows ← select_rows (df_rows df) mask;
  mret {| df_columns := df_columns df; df_rows := rows |}.

(** Those of [cols] that are not columns of the frame, in the order of
    [cols]. *)
Definition missing_columns (have cols : list string) : list string :=
  filter (λ c, c ∉ have) cols.

(** The cells of a row that belong to the listed columns. *)
Definition restrict (cols : list string) (r : Row) : Row :=
  filter (λ kv, kv.1 ∈ cols) r.

(** [df[[c1, c2, ...]]] for distinct names: the listed columns, in the
    listed order; one [KeyError] for all the missing ones when some are
    missing. *)
Definition df_getitem_cols (df : DataFrame) (cols : list string) : result DataFrame :=
  match missing_columns (df_columns df) cols with
  | [] =>
      Ok {| df_columns := cols;
            df_rows := prod_map id (restrict cols) <$> df_rows df |}
  | c :: rest => Raise (KeyErrorNotInIndex (c :: rest))
  end.

(** [Dataset.from_pandas(df, preserve_index=...)]: with [preserve_index]
    the index labels become one more column, without it they are dropped. *)
Definition from_pandas (df : DataFrame) (preserve_index : bool) : Dataset :=
  if preserve_index
  then {| features := df_columns df ++ ["__index_level_0__"];
          ds_rows := (λ ir, <["__index_level_0__" := VInt ir.1]> ir.2) <$> df_rows df |}
  else {| features := df_columns df; ds_rows := snd <$> df_rows df |}.

(** ** Configuration objects of the libraries

    A config is the record of the keyword arguments the notebook writes.
    [BitsAndBytesConfig] and [LoraConfig] take the arguments written here
    as they are; [TrainingArguments] checks its arguments against the host
    (bf16 and tf32 need a GPU that has them), which is a call that can
    raise: see [TrainingArguments_post_init] below. *)

Inductive torch_dtype := float16 | bfloat16 | float32.

Record BitsAndBytesConfig := mkBitsAndBytesConfig {
  load_in_4bit : bool;
  bnb_4bit_use_double_quant : bool;
  bnb_4bit_quant_type : string;
  bnb_4bit_compute_dtype : torch_dtype
}.

(** The keyword arguments of [from_pretrained] the notebook passes. *)
Record ModelKwargs := mkModelKwargs {
  low_cpu_mem_usage : bool;
  torch_dtype_kw : torch_dtype;
  quantization_config : BitsAndBytesConfig;
  use_flash_attention_2 : bool
}.

(** The attributes of a tokenizer the notebook reads or writes. *)
Record Tokenizer := mkTokenizer {
  name_or_path : string;
  eos_token : option string;
  pad_token : option string;
  padding_side : string
}.

Definition set_pad_token (v : option string) (t : Tokenizer) : Tokenizer :=
  {| name_or_path := name_or_path t; eos_token := eos_token t;
     pad_token := v; padding_side := padding_side t |}.

Definition set_padding_side (v : string) (t : Tokenizer) : Tokenizer :=
  {| name_or_path := name_or_path t; eos_token := eos_token t;
     pad_token := pad_token t; padding_side := v |}.

Record LoraConfig := mkLoraConfig {
  lora_alpha : Z;
  lora_dropout : Q;
  lora_r : Z;
  bias : string;
  task_type : string;
  target_modules : list string
}.

Record TrainingArguments := mkTrainingArguments {
  output_dir : string;
  num_train_epochs : Z;
  per_device_train_batch_size : Z;
  gradient_accumulation_steps : Z;
  gradient_checkpointing : bool;
  use_reentrant : bool;
  optim : string;
  logging_steps : Z;
  save_strategy : string;
  save_total_limit : Z;
  ignore_data_skip : bool;
  save_steps : Z;
  learning_rate : Q;
  bf16 : bool;
  tf32 : bool;
  max_grad_norm : Q;
  warmup_steps : Z;
  lr_scheduler_type : string;
  disable_tqdm : bool
}.

(** ** The notebook: module-level variables, the [Py] monad, the libraries *)

Section Notebook.
(** A loaded model and a trainer are opaque objects of the libraries. *)
Context {Model Trainer : Type}.

(** The module-level variables; [None] is a name not yet bound. *)
Record Globals := mkGlobals {
  g_dataset : option Dataset;
  g_model_id : option string;
  g_is_peft : option bool;
  g_bnb_config : option BitsAndBytesConfig;
  g_model : option Model;
  g_tokenizer : option Tokenizer;
  g_peft_config : option LoraConfig;
  g_args : option TrainingArguments;
  g_max_seq_length : option Z;
  g_trainer : option Trainer
}.

(** A computation reads and writes the module-level variables and either
    returns or raises; what was assigned before a raise stays assigned. *)
Definition Py (A : Type) : Type := Globals → result A * Globals.

#[global] Instance Py_ret : MRet Py := λ A a g, (Ok a, g).
#[global] Instance Py_bind : MBind Py := λ A B f m g,
  match m g with
  | (Ok a, g') => f a g'
  | (Raise e, g') => (Raise e, g')
  end.

(** A step that touches no variable: a library call, a dict lookup. *)
Definition lift {A} (r : result A) : Py A := λ g, (r, g).

(** Reading a name; [NameError] when it is not bound. *)
Definition name {A} (var : Globals → option A) (n : string) : Py A :=
  λ g, (match var g with Some a => Ok a | None => Raise (NameError n) end, g).

(** An assignment to a module-level variable. *)
Definition assign (upd : Globals → Globals) : Py unit := λ g, (Ok tt, upd g).

(** [m] neither reads nor writes a variable: it is [r], whatever the state. *)
Definition is_lift {A} (m : Py A) (r : result A) : Prop :=
  ∀ g, m g = (r, g).

Definition bind_dataset (v : Dataset) (g : Globals) : Globals :=
  mkGlobals (Some v) (g_model_id g) (g_is_peft g) (g_bnb_config g) (g_model g)
    (g_tokenizer g) (g_peft_config g) (g_args g) (g_max_seq_length g) (g_trainer g).
Definition bind_model_id (v : string) (g : Globals) : Globals :=
  mkGlobals (g_dataset g) (Some v) (g_is_peft g) (g_bnb_config g) (g_model g)
    (g_tokenizer g) (g_peft_config g) (g_args g) (g_max_seq_length g) (g_trainer g).
Definition bind_is_peft (v : bool) (g : Globals) : Globals :=
  mkGlobals (g_dataset g) (g_model_id g) (Some v) (g_bnb_config g) (g_model g)
    (g_tokenizer g) (g_peft_config g) (g_args g) (g_max_seq_length g) (g_trainer g).
Definition bind_bnb_config (v : BitsAndBytesConfig) (g : Globals) : Globals :=
  mkGlobals (g_dataset g) (g_model_id g) (g_is_peft g) (Some v) (g_model g)
    (g_tokenizer g) (g_peft_config g) (g_args g) (g_max_seq_length g) (g_trainer g).
Definition bind_model (v : Model) (g : Globals) : Globals :=
  mkGlobals (g_dataset g) (g_model_id g) (g_is_peft g) (g_bnb_config g) (Some v)
    (g_tokenizer g) (g_peft_config g) (g_args g) (g_max_seq_length g) (g_trainer g).
Definition bind_tokenizer (v : Tokenizer) (g : Globals) : Globals :=
  mkGlobals (g_dataset g) (g_model_id g) (g_is_peft g) (g_bnb_config g) (g_model g)
    (Some v) (g_peft_config g) (g_args g) (g_max_seq_length g) (g_trainer g).
Definition bind_peft_config (v : LoraConfig) (g : Globals) : Globals :=
  mkGlobals (g_dataset g) (g_model_id g) (g_is_peft g) (g_bnb_config g) (g_model g)
    (g_tokenizer g) (Some v) (g_args g) (g_max_seq_length g) (g_trainer g).
Definition bind_args (v : TrainingArguments) (g : Globals) : Globals :=
  mkGlobals (g_dataset g) (g_model_id g) (g_is_peft g) (g_bnb_config g) (g_model g)
    (g_tokenizer g) (g_peft_config g) (Some v) (g_max_seq_length g) (g_trainer g).
Definition bind_max_seq_length (v : Z) (g : Globals) : Globals :=
  mkGlobals (g_dataset g) (g_model_id g) (g_is_peft g) (g_bnb_config g) (g_model g)
    (g_tokenizer g) (g_peft_config g) (g_args g) (Some v) (g_trainer g).
Definition bind_trainer (v : Trainer) (g : Globals) : Globals :=
  mkGlobals (g_dataset g) (g_model_id g) (g_is_peft g) (g_bnb_config g) (g_model g)
    (g_tokenizer g) (g_peft_config g) (g_args g) (g_max_seq_length g) (Some v).

(** The keyword arguments of [SFTTrainer(...)]. *)
Record SFTTrainerKwargs := mkSFTTrainerKwargs {
  kw_model : Model;
  kw_train_dataset : Dataset;
  kw_tokenizer : Tokenizer;
  kw_max_seq_length : Z;
  kw_packing : bool;
  kw_formatting_func : Row → Py string;
  kw_args : TrainingArguments
}.

(** What the notebook calls in datasets, transformers, peft and trl.
    Each call returns or raises; nothing more is known about it. *)
Class Libs := {
  load_dataset : string → string → result Dataset;
  AutoModelForCausalLM_from_pretrained : string → ModelKwargs → result Model;
  set_pretraining_tp : Z → Model → Model;
  AutoTokenizer_from_pretrained : string → result Tokenizer;
  prepare_model_for_kbit_training : Model → result Model;
  mark_only_adapters_as_trainable : Model → result Model;
  get_peft_model : Model → LoraConfig → result Model;
  TrainingArguments_post_init : TrainingArguments → result unit;
  SFTTrainer : SFTTrainerKwargs → result Trainer
}.

Context {L : Libs}.

(** *** Preparing the dataset *)

Definition allowed_categories : list pyval :=
  [VStr "closed_qa"; VStr "information_extraction"; VStr "open_qa"].

Definition load_modified_dataset : Py Dataset :=
  dataset ← lift (load_dataset "databricks/databricks-dolly-15k" "train");
  let df := to_pandas dataset in
  let df := df_setitem df "keep" (VBool true) in
  category ← lift (df_getitem df "category");
  keep ← lift (df_getitem df "keep");
  mask ← lift (series_and (isin category allowed_categories) keep);
  df ← lift (df_getitem_mask df mask);
  df ← lift (df_getitem_cols df ["instruction"; "context"; "response"]);
  mret (from_pandas df false).

(** [dataset = load_modified_dataset()] *)
Definition cell_dataset : Py unit :=
  dataset ← load_modified_dataset;
  assign (bind_dataset dataset).

(** The triple-quoted f-string; its fields are evaluated left to right. *)
Definition format_instruction (sample : Row) : Py string :=
  context ← lift (dict_getitem sample "context");
  instruction ← lift (dict_getitem sample "instruction");
  response ← lift (dict_getitem sample "response");
  mret ("### Context:" +:+ LF +:+
        py_str context +:+ LF +:+
        LF +:+
        "### Question:" +:+ LF +:+
        "Using only the context above, " +:+ py_str instruction +:+ LF +:+
        LF +:+
        "### Response:" +:+ LF +:+
        py_str response +:+ LF).

(** *** Selecting the base model *)

(** [AutoPeftModelForCausalLM] is never imported by the notebook, so the
    [is_peft] branch stops at the name. *)
Definition cell_provision : Py unit :=
  assign (bind_model_id "mistralai/Mistral-7B-v0.1");;
  assign (bind_is_peft false);;
  assign (bind_bnb_config
            {| load_in_4bit := true;
               bnb_4bit_use_double_quant := false;
               bnb_4bit_quant_type := "nf4";
               bnb_4bit_compute_dtype := bfloat16 |});;
  is_peft ← name g_is_peft "is_peft";
  (if is_peft : bool then
     lift (Raise (NameError "AutoPeftModelForCausalLM"))
   else
     model_id ← name g_model_id "model_id";
     bnb_config ← name g_bnb_config "bnb_config";
     model ← lift (AutoModelForCausalLM_from_pretrained model_id
                     {| low_cpu_mem_usage := true;
                        torch_dtype_kw := float16;
                        quantization_config := bnb_config;
                        use_flash_attention_2 := true |});
     assign (bind_model model));;
  model ← name g_model "model";
  assign (bind_model (set_pretraining_tp 1 model));;
  model_id ← name g_model_id "model_id";
  tokenizer ← lift (AutoTokenizer_from_pretrained model_id);
  assign (bind_tokenizer tokenizer);;
  tokenizer ← name g_tokenizer "tokenizer";
  assign (bind_tokenizer (set_pad_token (eos_token tokenizer) tokenizer));;
  tokenizer ← name g_tokenizer "tokenizer";
  assign (bind_tokenizer (set_padding_side "right" tokenizer)).

(** *** Attaching the adapters *)

Definition cell_adapters : Py unit :=
  is_peft ← name g_is_peft "is_peft";
  if is_peft : bool then
    model ← name g_model "model";
    model ← lift (prepare_model_for_kbit_training model);
    assign (bind_model model);;
    model ← name g_model "model";
    model ← lift (mark_only_adapters_as_trainable model);
    assign (bind_model model)
  else
    assign (bind_peft_config
              {| lora_alpha := 16;
                 lora_dropout := 0.1;
                 lora_r := 8;
                 bias := "none";
                 task_type := "CAUSAL_LM";
                 target_modules := ["v_proj"; "down_proj"; "up_proj"; "o_proj";
                                    "q_proj"; "gate_proj"; "k_proj"] |});;
    model ← name g_model "model";
    model ← lift (prepare_model_for_kbit_training model);
    assign (bind_model model);;
    model ← name g_model "model";
    peft_config ← name g_peft_config "peft_config";
    model ← lift (get_peft_model model peft_config);
    assign (bind_model model).

(** *** Building the trainer *)

(** The arguments of [SFTTrainer(...)], evaluated in the order written. *)
Definition trainer_kwargs : Py SFTTrainerKwargs :=
  model ← name g_model "model";
  dataset ← name g_dataset "dataset";
  tokenizer ← name g_tokenizer "tokenizer";
  max_seq_length ← name g_max_seq_length "max_seq_length";
  args ← name g_args "args";
  mret {| kw_model := model;
          kw_train_dataset := dataset;
          kw_tokenizer := tokenizer;
          kw_max_seq_length := max_seq_length;
          kw_packing := true;
          kw_formatting_func := format_instruction;
          kw_args := args |}.

(** [TrainingArguments(...)]: the checks of the constructor pass or raise;
    when they pass the object holds the arguments given. *)
Definition new_TrainingArguments (kwargs : TrainingArguments) : Py TrainingArguments :=
  lift (TrainingArguments_post_init kwargs);;
  mret kwargs.

Definition cell_trainer : Py unit :=
  args ← new_TrainingArguments
            {| output_dir := "./mistral-7b-int4-dolly";
               num_train_epochs := 1;
               per_device_train_batch_size := 5;
               gradient_accumulation_steps := 2;
               gradient_checkpointing := true;
               use_reentrant := true;
               optim := "paged_adamw_32bit";
               logging_steps := 1;
               save_strategy := "steps";
               save_total_limit := 2;
               ignore_data_skip := true;
               save_steps := 2;
               learning_rate := 1e-3;
               bf16 := true;
               tf32 := true;
               max_grad_norm := 1.0;
               warmup_steps := 5;
               lr_scheduler_type := "constant";
               disable_tqdm := true |};
  assign (bind_args args);;
  assign (bind_max_seq_length 2048);;
  kwargs ← trainer_kwargs;
  trainer ← lift (SFTTrainer kwargs);
  assign (bind_trainer trainer).

(** The loader with rows selected by category membership alone: no [keep]
    column is added and the mask is the membership test itself. *)
Definition load_by_category : Py Dataset :=
  dataset ← lift (load_dataset "databricks/databricks-dolly-15k" "train");
  let df := to_pandas dataset in
  category ← lift (df_getitem df "category");
  df ← lift (df_getitem_mask df (isin category allowed_categories));
  df ← lift (df_getitem_cols df ["instruction"; "context"; "response"]);
  mret (from_pandas df false).

(** The code cells in the order of the notebook, up to the trainer. *)
Definition notebook : Py unit :=
  cell_dataset;;
  cell_provision;;
  cell_adapters;;
  cell_trainer.

End Notebook.

Arguments Globals : clear implicits.
Arguments Py : clear implicits.
Arguments SFTTrainerKwargs : clear implicits.
Arguments Libs : clear implicits.

(** ** Records and tables as the claims speak of them *)

(** A row of the source dataset whose category is closed_qa,
    information_extraction or open_qa. *)
Definition category_allowed (r : Row) : Prop :=
  ∃ c, r !! "category" = Some (VStr c)
       ∧ c ∈ ["closed_qa"; "information_extraction"; "open_qa"].

#[global] Instance category_allowed_dec r : Decision (category_allowed r).
Proof.
  refine (match r !! "category" as o return r !! "category" = o → _ with
          | Some (VStr c) =>
              λ E, cast_if (decide (c ∈ ["closed_qa"; "information_extraction"; "open_qa"]))
          | _ => λ E, right _
          end eq_refl); unfold category_allowed.
  all: try (intros (w & Hw & _); congruence).
  - eauto.
  - intros (w & Hw & Hin). congruence.
Defined.

(** The three columns the loader keeps. *)
Definition kept_columns : list string := ["instruction"; "context"; "response"].

(** The rows of [d] with an allowed category, in their order and as often as
    they occur, each cut down to the kept columns. *)
Definition kept_rows (d : Dataset) : list Row :=
  restrict kept_columns <$> filter category_allowed (ds_rows d).

(** The index labels of the rows the mask of [load_modified_dataset] selects
    in a frame: the [keep] column is set and the mask is the membership
    test and [keep]. *)
Definition selected_with_keep (df : DataFrame) : result (list Z) :=
  let df := df_setitem df "keep" (VBool true) in
  category ← df_getitem df "category";
  keep ← df_getitem df "keep";
  mask ← series_and (isin category allowed_categories) keep;
  rows ← select_rows (df_rows df) mask;
  mret (fst <$> (rows : list (Z * Row))).

(** The index labels of the rows the membership test alone selects. *)
Definition selected_by_category (df : DataFrame) : result (list Z) :=
  category ← df_getitem df "category";
  rows ← select_rows (df_rows df) (isin category allowed_categories);
  mret (fst <$> (rows : list (Z * Row))).

(** What a loader makes of the answer of [load_dataset], in closed form:
    the error of the library, or the [KeyError] of the category column, or
    the [KeyError] of the kept columns that are not there, or the kept rows
    under the kept columns. *)
Definition loader_outcome (answer : result Dataset) : result Dataset :=
  d ← answer;
  if bool_decide ("category" ∈ features d) then
    match missing_columns (features d) kept_columns with
    | [] => Ok {| features := kept_columns; ds_rows := kept_rows d |}
    | c :: rest => Raise (KeyErrorNotInIndex (c :: rest))
    end
  else Raise (KeyError "category").

(** Every row of a table has a cell in every column and no other cell. *)
Definition well_formed (d : Dataset) : Prop :=
  Forall (λ r : Row, dom r = list_to_set (features d)) (ds_rows d).

(** The dict of a record with text fields, as a dataset row holds it. *)
Definition raw_record (instruction context response : string) : Row :=
  {[ "instruction" := VStr instruction;
     "context" := VStr context;
     "response" := VStr response ]}.

(** The text of the template around three strings. *)
Definition prompt (c i r : string) : string :=
  "### Context:" +:+ LF +:+ c +:+ LF +:+ LF +:+
  "### Question:" +:+ LF +:+ "Using only the context above, " +:+ i +:+ LF +:+ LF +:+
  "### Response:" +:+ LF +:+ r +:+ LF.

(** [parts] occur in [s] one after the other, without overlap. *)
Fixpoint occur_in_order (parts : list string) (s : string) : Prop :=
  match parts with
  | [] => True
  | p :: rest => ∃ before after, s = before +:+ p +:+ after ∧ occur_in_order rest after
  end.

(** ** Stand-ins for the libraries, used to run the cells on examples *)

Module Fixture.
Definition dolly : Dataset :=
  {| features := ["instruction"; "context"; "response"; "category"];
     ds_rows :=
       [ {[ "instruction" := VStr "Who wrote it?"; "context" := VStr "Ann wrote it.";
            "response" := VStr "Ann"; "category" := VStr "closed_qa" ]};
         {[ "instruction" := VStr "Write a poem"; "context" := VStr "";
            "response" := VStr "Roses"; "category" := VStr "creative_writing" ]};
         {[ "instruction" := VStr "What is water?"; "context" := VStr "";
            "response" := VStr "H2O"; "category" := VStr "open_qa" ]} ] |}.

(** A tokenizer that ships with left padding and no padding token. *)
Definition shipped_tokenizer : Tokenizer :=
  {| name_or_path := "mistralai/Mistral-7B-v0.1";
     eos_token := Some "</s>"; pad_token := None; padding_side := "left" |}.

(** A model is stood for by the arguments it was loaded with and the list
    of what was done to it since. *)
Definition model : Type := string * ModelKwargs * list string.

(** A trainer is stood for by the tokenizer and the dataset it was given. *)
Definition trainer : Type := Tokenizer * Dataset.

#[export] Instance libs : Libs model trainer :=
  {| load_dataset path split :=
       if bool_decide (path = "databricks/databricks-dolly-15k" ∧ split = "train")
       then Ok dolly else Raise (LibraryError "no such dataset");
     AutoModelForCausalLM_from_pretrained model_id kwargs := Ok (model_id, kwargs, []);
     set_pretraining_tp v m := (m.1, "pretraining_tp" :: m.2);
     AutoTokenizer_from_pretrained model_id := Ok shipped_tokenizer;
     prepare_model_for_kbit_training m := Ok (m.1, "kbit" :: m.2);
     mark_only_adapters_as_trainable m := Ok (m.1, "adapters_only" :: m.2);
     get_peft_model m cfg := Ok (m.1, "lora" :: m.2);
     TrainingArguments_post_init kwargs := Ok tt;
     SFTTrainer kwargs := Ok (kw_tokenizer kwargs, kw_train_dataset kwargs) |}.

Definition fresh : Globals model trainer :=
  mkGlobals None None None None None None None None None None.
End Fixture.

(** ** What the cells bind, by name *)

(** The identifier the provisioning cell binds [model_id] to. *)
Definition model_id : string := "mistralai/Mistral-7B-v0.1".

(** The config the provisioning cell binds [bnb_config] to. *)
Definition bnb_config : BitsAndBytesConfig :=
  {| load_in_4bit := true;
     bnb_4bit_use_double_quant := false;
     bnb_4bit_quant_type := "nf4";
     bnb_4bit_compute_dtype := bfloat16 |}.

(** The keyword arguments the provisioning cell loads the model with. *)
Definition model_kwargs : ModelKwargs :=
  {| low_cpu_mem_usage := true;
     torch_dtype_kw := float16;
     quantization_config := bnb_config;
     use_flash_attention_2 := true |}.

(** The config the adapter cell binds [peft_config] to. *)
Definition peft_config : LoraConfig :=
  {| lora_alpha := 16;
     lora_dropout := 0.1;
     lora_r := 8;
     bias := "none";
     task_type := "CAUSAL_LM";
     target_modules := ["v_proj"; "down_proj"; "up_proj"; "o_proj";
                        "q_proj"; "gate_proj"; "k_proj"] |}.

(** The arguments the trainer cell binds [args] to. *)
Definition args : TrainingArguments :=
  {| output_dir := "./mistral-7b-int4-dolly";
     num_train_epochs := 1;
     per_device_train_batch_size := 5;
     gradient_accumulation_steps := 2;
     gradient_checkpointing := true;
     use_reentrant := true;
     optim := "paged_adamw_32bit";
     logging_steps := 1;
     save_strategy := "steps";
     save_total_limit := 2;
     ignore_data_skip := true;
     save_steps := 2;
     learning_rate := 1e-3;
     bf16 := true;
     tf32 := true;
     max_grad_norm := 1.0;
     warmup_steps := 5;
     lr_scheduler_type := "constant";
     disable_tqdm := true |}.

(** The tokenizer the provisioning cell makes of the loaded one. *)
Definition provisioned (t : Tokenizer) : Tokenizer :=
  set_padding_side "right" (set_pad_token (eos_token t) t).

(** [n] when the variable holds nothing, to list the names a cell would
    find unbound. *)
Definition unbound {A} (var : option A) (n : string) : list string :=
  if var is Some _ then [] else [n].

(** The names the call of [SFTTrainer] reads from earlier cells, in the
    order it reads them, as far as they are unbound. *)
Definition trainer_unbound {Model Trainer} (g : Globals Model Trainer) : list string :=
  unbound (g_model g) "model" ++ unbound (g_dataset g) "dataset"
  ++ unbound (g_tokenizer g) "tokenizer".

(** What a run of the notebook makes of the answers of the libraries, in
    closed form: the first error met, or the variables as the last cell
    leaves them. *)
Section Outcome.
Context {Model Trainer : Type} {L : Libs Model Trainer}.

Definition notebook_outcome : result (Globals Model Trainer) :=
  dataset ← loader_outcome (load_dataset "databricks/databricks-dolly-15k" "train");
  model ← AutoModelForCausalLM_from_pretrained model_id model_kwargs;
  tokenizer ← AutoTokenizer_from_pretrained model_id;
  prepared ← prepare_model_for_kbit_training (set_pretraining_tp 1 model);
  adapted ← get_peft_model prepared peft_config;
  TrainingArguments_post_init args;;
  trainer ← SFTTrainer {| kw_model := adapted;
                          kw_train_dataset := dataset;
                          kw_tokenizer := provisioned tokenizer;
                          kw_max_seq_length := 2048;
                          kw_packing := true;
                          kw_formatting_func := format_instruction;
                          kw_args := args |};
  mret (mkGlobals (Some dataset) (Some model_id) (Some false) (Some bnb_config)
          (Some adapted) (Some (provisioned tokenizer)) (Some peft_config)
          (Some args) (Some 2048) (Some trainer)).
End Outcome.

(** ** Stand-ins for the libraries in which a call can be made to fail *)

Module Scenario.
Record switches := mkSwitches {
  dataset_answer : result Dataset;
  model_loads : bool;
  tokenizer_loads : bool;
  prepares : bool;
  adapts : bool;
  accepts : bool;
  builds : bool
}.

Definition answer {A} (works : bool) (a : A) (what : string) : result A :=
  if works then Ok a else Raise (LibraryError what).

Definition libs (s : switches) : Libs Fixture.model Fixture.trainer :=
  {| load_dataset path split := dataset_answer s;
     AutoModelForCausalLM_from_pretrained repo kwargs :=
       answer (model_loads s) (repo, kwargs, []) "model";
     set_pretraining_tp v m := (m.1, "pretraining_tp" :: m.2);
     AutoTokenizer_from_pretrained repo :=
       answer (tokenizer_loads s) Fixture.shipped_tokenizer "tokenizer";
     prepare_model_for_kbit_training m :=
       answer (prepares s) (m.1, "kbit" :: m.2) "prepare";
     mark_only_adapters_as_trainable m := Ok (m.1, "adapters_only" :: m.2);
     get_peft_model m cfg := answer (adapts s) (m.1, "lora" :: m.2) "peft";
     TrainingArguments_post_init kwargs := answer (accepts s) tt "bf16";
     SFTTrainer kwargs :=
       answer (builds s) (kw_tokenizer kwargs, kw_train_dataset kwargs) "trainer" |}.

(** A table without the [context] and [response] columns. *)
Definition two_columns : Dataset :=
  {| features := ["instruction"; "category"];
     ds_rows := [ {[ "instruction" := VStr "Who wrote it?";
                     "category" := VStr "closed_qa" ]} ] |}.

(** A table whose rows all have a category that is not kept. *)
Definition other_categories : Dataset :=
  {| features := ["instruction"; "context"; "response"; "category"];
     ds_rows :=
       [ {[ "instruction" := VStr "Write a poem"; "context" := VStr "";
            "response" := VStr "Roses"; "category" := VStr "creative_writing" ]};
         {[ "instruction" := VStr "Name three fruits"; "context" := VStr "";
            "response" := VStr "Apple, pear, plum"; "category" := VStr "brainstorming" ]} ] |}.

(** The three-row table with a [keep] column that says False everywhere. *)
Definition with_keep_false : Dataset :=
  {| features := features Fixture.dolly ++ ["keep"];
     ds_rows := (λ r : Row, <["keep" := VBool false]> r) <$> ds_rows Fixture.dolly |}.

(** Every call works. *)
Definition all_work : switches :=
  {| dataset_answer := Ok Fixture.dolly; model_loads := true; tokenizer_loads := true;
     prepares := true; adapts := true; accepts := true;
     builds := true |}.

(** The dataset cannot be reached. *)
Definition offline : switches :=
  {| dataset_answer := Raise (LibraryError "unreachable"); model_loads := true;
     tokenizer_loads := true; prepares := true; adapts := true; accepts := true;
     builds := true |}.

(** Every call works and the dataset is [d]. *)
Definition serving (d : Dataset) : switches :=
  {| dataset_answer := Ok d; model_loads := true; tokenizer_loads := true;
     prepares := true; adapts := true; accepts := true;
     builds := true |}.

(** One call fails, the others work. *)
Definition no_model : switches :=
  {| dataset_answer := Ok Fixture.dolly; model_loads := false; tokenizer_loads := true;
     prepares := true; adapts := true; accepts := true;
     builds := true |}.
Definition no_tokenizer : switches :=
  {| dataset_answer := Ok Fixture.dolly; model_loads := true; tokenizer_loads := false;
     prepares := true; adapts := true; accepts := true;
     builds := true |}.
Definition no_adapter : switches :=
  {| dataset_answer := Ok Fixture.dolly; model_loads := true; tokenizer_loads := true;
     prepares := true; adapts := false; accepts := true;
     builds := true |}.

(** The host has no bf16: the constructor of [TrainingArguments] raises. *)
Definition no_bf16 : switches :=
  {| dataset_answer := Ok Fixture.dolly; model_loads := true; tokenizer_loads := true;
     prepares := true; adapts := true; accepts := false;
     builds := true |}.

(** A state in which [is_peft] is set and a model is bound. *)
Definition peft_state : Globals Fixture.model Fixture.trainer :=
  bind_model (model_id, model_kwargs, []) (bind_is_peft true Fixture.fresh).

(** A state left by an earlier session: a left-padding tokenizer is bound. *)
Definition stale_state : Globals Fixture.model Fixture.trainer :=
  bind_tokenizer Fixture.shipped_tokenizer Fixture.fresh.
End Scenario.

(** * Properties *)

Section Properties.
Context {Model Trainer : Type} {L : Libs Model Trainer}.
Implicit Types (g : Globals Model Trainer) (sample : Row).

(** ** Computations that leave the variables alone *)

Lemma is_lift_lift {A} (r : result A) : is_lift (lift r : Py Model Trainer A) r.
Proof. done. Qed.

Lemma is_lift_ret {A} (a : A) : is_lift (mret a : Py Model Trainer A) (Ok a).
Proof. done. Qed.

Lemma is_lift_bind {A B} (m : Py Model Trainer A) (k : A → Py Model Trainer B) r k' :
  is_lift m r → (∀ a, is_lift (k a) (k' a)) → is_lift (m ≫= k) (r ≫= k').
Proof.
  intros Hm Hk g. unfold mbind, Py_bind. rewrite Hm.
  destruct r as [a|e]; [apply Hk | done].
Qed.

Ltac solve_is_lift :=
  repeat first
    [ apply is_lift_lift
    | apply is_lift_ret
    | eapply is_lift_bind; [ | intros ? ] ].

Lemma bind_lift_ok {A B} (r : result A) (k : A → Py Model Trainer B) a g :
  r = Ok a → (lift r ≫= k) g = k a g.
Proof. by intros ->. Qed.

(** ** The prompt formatter *)

Lemma format_instruction_is_lift sample :
  ∃ r, is_lift (format_instruction sample : Py Model Trainer string) r.
Proof. unfold format_instruction. eexists. solve_is_lift. Qed.

Lemma format_instruction_text sample g (c i r : string) :
  sample !! "context" = Some (VStr c) →
  sample !! "instruction" = Some (VStr i) →
  sample !! "response" = Some (VStr r) →
  format_instruction sample g = (Ok (prompt c i r), g).
Proof.
  intros Hc Hi Hr. unfold format_instruction, dict_getitem.
  rewrite Hc, Hi, Hr. reflexivity.
Qed.

Lemma string_app_length (a b : string) :
  String.length (a +:+ b) = (String.length a + String.length b)%nat.
Proof.
  induction a as [|x a IH]; [done|].
  change (String x a +:+ b) with (String x (a +:+ b)). simpl. by rewrite IH.
Qed.

Lemma string_app_assoc (a b c : string) : (a +:+ b) +:+ c = a +:+ b +:+ c.
Proof.
  induction a as [|x a IH]; [done|].
  change ((String x a +:+ b) +:+ c) with (String x ((a +:+ b) +:+ c)).
  by rewrite IH.
Qed.

Lemma prompt_length (c i r : string) :
  String.length (prompt c i r)
  = (76 + String.length c + String.length i + String.length r)%nat.
Proof.
  unfold prompt. rewrite !string_app_length. simpl. lia.
Qed.

Lemma prompt_in_order (c i r : string) :
  occur_in_order
    ["### Context:"; c; "### Question:"; i; "### Response:"; r] (prompt c i r).
Proof.
  unfold prompt. simpl.
  exists "", (LF +:+ c +:+ LF +:+ LF +:+ "### Question:" +:+ LF +:+
              "Using only the context above, " +:+ i +:+ LF +:+ LF +:+
              "### Response:" +:+ LF +:+ r +:+ LF).
  split; [reflexivity|].
  exists LF, (LF +:+ LF +:+ "### Question:" +:+ LF +:+
              "Using only the context above, " +:+ i +:+ LF +:+ LF +:+
              "### Response:" +:+ LF +:+ r +:+ LF).
  split; [reflexivity|].
  exists (LF +:+ LF), (LF +:+ "Using only the context above, " +:+ i +:+ LF +:+ LF +:+
                       "### Response:" +:+ LF +:+ r +:+ LF).
  split; [reflexivity|].
  exists (LF +:+ "Using only the context above, "),
         (LF +:+ LF +:+ "### Response:" +:+ LF +:+ r +:+ LF).
  split; [reflexivity|].
  exists (LF +:+ LF), (LF +:+ r +:+ LF).
  split; [reflexivity|].
  exists LF, LF. split; [reflexivity | exact I].
Qed.

(** C1: on the record with instruction "summarize this", context
    "The sky is blue." and response "Sky: blue.", [format_instruction]
    returns the text below, line feeds and the final line feed included,
    and nothing else. *)
Theorem format_instruction_sky g :
  format_instruction (raw_record "summarize this" "The sky is blue." "Sky: blue.") g
  = (Ok "### Context:
The sky is blue.

### Question:
Using only the context above, summarize this

### Response:
Sky: blue.
", g).
Proof. reflexivity. Qed.

(** C2: for every record with text fields the output is the template with
    the context, the instruction and the response put in unchanged: the
    three headers and the three fields occur in this order, and the length
    is that of the template plus the lengths of the fields, whatever these
    are. *)
Theorem format_instruction_sections sample g (c i r : string) :
  sample !! "context" = Some (VStr c) →
  sample !! "instruction" = Some (VStr i) →
  sample !! "response" = Some (VStr r) →
  ∃ out, format_instruction sample g = (Ok out, g)
    ∧ out = "### Context:" +:+ LF +:+ c +:+ LF +:+ LF +:+
            "### Question:" +:+ LF +:+ "Using only the context above, " +:+ i +:+ LF +:+ LF +:+
            "### Response:" +:+ LF +:+ r +:+ LF
    ∧ occur_in_order
        ["### Context:"; c; "### Question:"; i; "### Response:"; r] out
    ∧ String.length out
      = (76 + String.length c + String.length i + String.length r)%nat.
Proof.
  intros Hc Hi Hr. exists (prompt c i r).
  split; [by apply format_instruction_text|].
  split; [reflexivity|].
  split; [apply prompt_in_order | apply prompt_length].
Qed.

(** C4: [format_instruction] reads no variable and writes none.  Its result
    is the same in any two states, the state after a call is the state
    before it, and two calls in a row on one record give the same text
    twice. *)
Theorem format_instruction_stateless sample :
  (∀ g1 g2, (format_instruction sample g1).1 = (format_instruction sample g2).1)
  ∧ (∀ g, (format_instruction sample g).2 = g)
  ∧ (∀ g, (a ← format_instruction sample;
           b ← format_instruction sample;
           mret (a, b)) g
          = (match (format_instruction sample g).1 with
             | Ok text => Ok (text, text)
             | Raise e => Raise e
             end, g)).
Proof.
  destruct (format_instruction_is_lift sample) as [r Hr].
  split; [|split].
  - intros g1 g2. by rewrite !Hr.
  - intros g. by rewrite Hr.
  - intros g. unfold mbind, Py_bind. rewrite !Hr. simpl.
    by destruct r as [text|e].
Qed.


(** ** The dataset loader *)

Lemma df_getitem_setitem_same df c v :
  df_getitem (df_setitem df c v) c = Ok ((λ _, v) <$> df_rows df).
Proof.
  unfold df_getitem, df_setitem. simpl.
  rewrite bool_decide_eq_true_2.
  - f_equal. rewrite <- list_fmap_compose. apply list_fmap_ext.
    intros _ [i r] _. simpl. by rewrite lookup_insert_eq.
  - case_bool_decide; [done|]. rewrite elem_of_app, list_elem_of_singleton. by right.
Qed.

Lemma df_getitem_setitem_other df c c' v :
  c ≠ c' → df_getitem (df_setitem df c v) c' = df_getitem df c'.
Proof.
  intros Hne. unfold df_getitem, df_setitem. simpl.
  assert (c' ∈ (if bool_decide (c ∈ df_columns df) then df_columns df
                else (df_columns df ++ [c])%list) ↔ c' ∈ df_columns df) as Hin.
  { case_bool_decide; [done|]. rewrite elem_of_app, list_elem_of_singleton.
    split; [intros [?|?]; [done | congruence] | by left]. }
  rewrite (bool_decide_ext _ _ Hin).
  destruct (bool_decide (c' ∈ df_columns df)); [|done].
  f_equal. rewrite <- list_fmap_compose. apply list_fmap_ext.
  intros _ [i r] _. simpl. by rewrite lookup_insert_ne.
Qed.

Lemma series_and_keep {X} (col : X → pyval) values (l : list X) :
  series_and (isin (col <$> l) values) ((λ _, VBool true) <$> l)
  = Ok (isin (col <$> l) values).
Proof.
  unfold isin. induction l as [|x l IH]; [done|].
  rewrite !fmap_cons. cbn [series_and py_and]. rewrite IH.
  by rewrite andb_true_r.
Qed.

Lemma select_rows_isin {X} (h : X → Z * Row) (col : X → pyval) values (l : list X) :
  select_rows (h <$> l) (isin (col <$> l) values)
  = Ok (h <$> filter (λ x, col x ∈ values) l).
Proof.
  unfold isin. induction l as [|x l IH]; [done|].
  rewrite !fmap_cons. cbn [select_rows]. rewrite IH, filter_cons.
  case_bool_decide; case_decide; done.
Qed.

Lemma select_rows_isin_id (col : Z * Row → pyval) values (l : list (Z * Row)) :
  select_rows l (isin (col <$> l) values) = Ok (filter (λ x, col x ∈ values) l).
Proof.
  pose proof (select_rows_isin id col values l) as H.
  by rewrite !list_fmap_id in H.
Qed.

Lemma restrict_insert_other cols c v (r : Row) :
  c ∉ cols → restrict cols (<[c := v]> r) = restrict cols r.
Proof.
  intros Hc. unfold restrict. apply map_eq. intros k.
  apply option_eq. intros w. rewrite !map_lookup_filter_Some. simpl.
  destruct (decide (k = c)) as [->|Hk].
  - split; intros [_ ?]; done.
  - by rewrite lookup_insert_ne.
Qed.

Lemma dom_restrict cols (r : Row) :
  list_to_set cols ⊆ dom r → dom (restrict cols r) = list_to_set cols.
Proof.
  intros Hsub. unfold restrict. apply set_eq. intros k.
  rewrite elem_of_dom, elem_of_list_to_set. split.
  - intros [v Hv]. apply map_lookup_filter_Some in Hv. by destruct Hv.
  - intros Hk. assert (k ∈ dom r) as [v Hv]%elem_of_dom.
    { apply Hsub. by apply elem_of_list_to_set. }
    exists v. by apply map_lookup_filter_Some.
Qed.

Lemma snd_filter_imap (P : Row → Prop) `{!∀ r, Decision (P r)}
    (f : nat → Z) (rows : list Row) :
  snd <$> filter (λ ir : Z * Row, P ir.2) (imap (λ i r, (f i, r)) rows)
  = filter P rows.
Proof.
  revert f. induction rows as [|r rows IH]; intros f; [done|].
  rewrite imap_cons, !filter_cons. simpl.
  case_decide; simpl; [f_equal|]; exact (IH (f ∘ S)).
Qed.

Lemma snd_filter_with_index (P : Row → Prop) `{!∀ r, Decision (P r)} (rows : list Row) :
  snd <$> filter (λ ir : Z * Row, P ir.2) (with_index rows) = filter P rows.
Proof. apply snd_filter_imap. Qed.

(** The membership test the mask carries, on one row. *)
Lemma isin_allowed (r : Row) :
  default VNone (r !! "category") ∈ allowed_categories ↔ category_allowed r.
Proof.
  unfold category_allowed, allowed_categories. split.
  - destruct (r !! "category") as [v|]; simpl;
      rewrite !elem_of_cons, elem_of_nil;
      intros [Hv|[Hv|[Hv|[]]]]; try done; subst v;
      eexists; (split; [reflexivity | repeat constructor]).
  - intros (c & -> & Hc). simpl.
    rewrite !elem_of_cons, elem_of_nil in Hc.
    destruct Hc as [->|[->|[->|[]]]]; repeat constructor.
Qed.

Lemma keep_not_kept : "keep" ∉ kept_columns.
Proof.
  unfold kept_columns. rewrite !elem_of_cons, elem_of_nil.
  intros [?|[?|[?|[]]]]; done.
Qed.

Lemma missing_columns_extra (have cols : list string) k :
  k ∉ cols →
  missing_columns (if bool_decide (k ∈ have) then have else (have ++ [k])%list) cols
  = missing_columns have cols.
Proof.
  intros Hk. case_bool_decide; [done|].
  unfold missing_columns.
  induction cols as [|c cols IH]; [done|].
  apply not_elem_of_cons in Hk as [Hkc Hk].
  rewrite !filter_cons, IH by done.
  assert (c ∈ (have ++ [k])%list ↔ c ∈ have) as Hc.
  { rewrite elem_of_app, list_elem_of_singleton.
    split; [intros [?|?]; [done | congruence] | by left]. }
  repeat case_decide; tauto.
Qed.

(** The rows a mask of membership tests keeps, once the index is dropped
    and the rows are cut down to the kept columns. *)
Lemma kept_rows_of_mask (d : Dataset) (h : Z * Row → Z * Row) :
  (∀ ir, restrict kept_columns (h ir).2 = restrict kept_columns ir.2) →
  snd <$> (prod_map id (restrict kept_columns) <$>
             (h <$>
                filter (λ ir : Z * Row,
                          default VNone (ir.2 !! "category") ∈ allowed_categories)
                       (with_index (ds_rows d))))
  = kept_rows d.
Proof.
  intros Hh. unfold kept_rows.
  rewrite <- (snd_filter_with_index category_allowed).
  rewrite <- !list_fmap_compose.
  rewrite (list_filter_iff _ (λ ir : Z * Row, category_allowed ir.2))
    by (intros ir; apply isin_allowed).
  apply list_fmap_ext. intros _ ir _. simpl. apply Hh.
Qed.

Lemma load_modified_dataset_outcome g :
  load_modified_dataset g
  = (loader_outcome (load_dataset "databricks/databricks-dolly-15k" "train"), g).
Proof.
  unfold load_modified_dataset, loader_outcome.
  destruct (load_dataset _ _) as [d|e]; [|reflexivity].
  erewrite bind_lift_ok by reflexivity. cbv beta.
  rewrite (df_getitem_setitem_other _ "keep" "category") by discriminate.
  rewrite df_getitem_setitem_same.
  unfold df_getitem at 1. cbn [to_pandas df_columns df_rows mbind result_bind].
  case_bool_decide as Hcat; [|reflexivity].
  erewrite bind_lift_ok by reflexivity.
  erewrite bind_lift_ok by reflexivity.
  rewrite series_and_keep.
  erewrite bind_lift_ok by reflexivity.
  unfold df_getitem_mask, df_setitem. cbn [df_rows df_columns].
  rewrite select_rows_isin. cbn [mbind result_bind].
  erewrite bind_lift_ok by reflexivity.
  unfold df_getitem_cols. cbn [df_rows df_columns mret result_ret].
  fold kept_columns.
  rewrite (missing_columns_extra _ kept_columns) by apply keep_not_kept.
  change (df_columns (to_pandas d)) with (features d).
  destruct (missing_columns (features d) kept_columns) as [|c rest]; [|reflexivity].
  erewrite bind_lift_ok by reflexivity.
  unfold from_pandas. cbn [df_rows df_columns].
  rewrite (kept_rows_of_mask d (prod_map id (<["keep" := VBool true]>)));
    [reflexivity|].
  intros ir. apply restrict_insert_other, keep_not_kept.
Qed.

Lemma load_by_category_outcome g :
  load_by_category g
  = (loader_outcome (load_dataset "databricks/databricks-dolly-15k" "train"), g).
Proof.
  unfold load_by_category, loader_outcome.
  destruct (load_dataset _ _) as [d|e]; [|reflexivity].
  erewrite bind_lift_ok by reflexivity. cbv beta.
  unfold df_getitem. cbn [to_pandas df_columns df_rows mbind result_bind].
  case_bool_decide as Hcat; [|reflexivity].
  erewrite bind_lift_ok by reflexivity.
  unfold df_getitem_mask. cbn [df_rows df_columns].
  rewrite select_rows_isin_id. cbn [mbind result_bind].
  erewrite bind_lift_ok by reflexivity.
  unfold df_getitem_cols. cbn [df_rows df_columns mret result_ret].
  fold kept_columns. change (df_columns (to_pandas d)) with (features d).
  destruct (missing_columns (features d) kept_columns) as [|c rest]; [|reflexivity].
  erewrite bind_lift_ok by reflexivity.
  unfold from_pandas. cbn [df_rows df_columns].
  rewrite <- (kept_rows_of_mask d id) by done.
  by rewrite list_fmap_id.
Qed.

Lemma missing_columns_nil (have cols : list string) :
  cols ⊆ have → missing_columns have cols = [].
Proof.
  intros Hsub. unfold missing_columns.
  induction cols as [|c cols IH]; [done|].
  rewrite filter_cons. case_decide as Hc.
  - destruct Hc. apply Hsub. by left.
  - apply IH. intros x Hx. apply Hsub. by right.
Qed.

Lemma restrict_lookup cols (r : Row) k :
  k ∈ cols → restrict cols r !! k = r !! k.
Proof.
  intros Hk. unfold restrict. apply option_eq. intros v.
  rewrite map_lookup_filter_Some. simpl. tauto.
Qed.

Lemma category_allowed_names (r : Row) :
  category_allowed r
  ↔ r !! "category" ∈ [Some (VStr "closed_qa"); Some (VStr "information_extraction");
                        Some (VStr "open_qa")].
Proof.
  unfold category_allowed. rewrite !elem_of_cons, elem_of_nil. split.
  - intros (c & -> & Hc). rewrite !elem_of_cons, elem_of_nil in Hc.
    destruct Hc as [->|[->|[->|[]]]]; auto.
  - intros [H|[H|[H|[]]]]; eexists; (split; [exact H | repeat constructor]).
Qed.

(** C3: when the library answers with a table that has the four columns,
    the loader returns the rows whose category is closed_qa,
    information_extraction or open_qa, in their order and as often as they
    occur, and no other row; every returned row has the cells instruction,
    context and response of its source row and no other cell. *)
Theorem load_modified_dataset_keeps g (d : Dataset) :
  load_dataset "databricks/databricks-dolly-15k" "train" = Ok d →
  ["category"; "instruction"; "context"; "response"] ⊆ features d →
  well_formed d →
  ∃ out, load_modified_dataset g = (Ok out, g)
    ∧ features out = ["instruction"; "context"; "response"]
    ∧ ds_rows out
      = restrict ["instruction"; "context"; "response"]
          <$> filter
                (λ r : Row,
                   r !! "category"
                   ∈ [Some (VStr "closed_qa"); Some (VStr "information_extraction");
                      Some (VStr "open_qa")])
                (ds_rows d)
    ∧ (∀ r, r ∈ ds_rows d →
         r !! "category"
         ∈ [Some (VStr "closed_qa"); Some (VStr "information_extraction");
            Some (VStr "open_qa")] →
         restrict ["instruction"; "context"; "response"] r ∈ ds_rows out)
    ∧ (∀ r', r' ∈ ds_rows out →
         ∃ r, r ∈ ds_rows d
           ∧ r !! "category"
             ∈ [Some (VStr "closed_qa"); Some (VStr "information_extraction");
                Some (VStr "open_qa")]
           ∧ dom r' = {[ "instruction"; "context"; "response" ]}
           ∧ r' !! "instruction" = r !! "instruction"
           ∧ r' !! "context" = r !! "context"
           ∧ r' !! "response" = r !! "response").
Proof.
  intros Hload Hcols Hwf.
  exists {| features := kept_columns; ds_rows := kept_rows d |}.
  split.
  { rewrite load_modified_dataset_outcome, Hload. unfold loader_outcome.
    cbn [mbind result_bind].
    rewrite bool_decide_eq_true_2 by (apply Hcols; by left).
    rewrite missing_columns_nil; [done|].
    intros c Hc. apply Hcols. by right. }
  split; [done|]. cbn [ds_rows]. unfold kept_rows. fold kept_columns.
  rewrite (list_filter_iff _ _ _ category_allowed_names).
  split; [done|]. split.
  - intros r Hr Hallowed. apply list_elem_of_fmap_2.
    by apply list_elem_of_filter.
  - intros r' Hr'. apply list_elem_of_fmap in Hr' as (r & Heq & Hr).
    apply list_elem_of_filter in Hr as [Hallowed Hr]. subst r'.
    exists r. split; [done|]. split; [done|].
    split; [|by rewrite !restrict_lookup by (unfold kept_columns; repeat constructor)].
    rewrite dom_restrict; [unfold kept_columns; clear; set_solver|].
    unfold well_formed in Hwf. rewrite Forall_forall in Hwf.
    rewrite (Hwf r Hr). intros c Hc%elem_of_list_to_set.
    apply elem_of_list_to_set, Hcols. by right.
Qed.

(** C9: the [keep] column changes nothing.  On every frame the mask with
    [keep] selects the rows with the index labels that the membership test
    alone selects, and for every answer of the library the loader returns
    what the loader without [keep] returns, errors included. *)
Theorem keep_flag_inert :
  (∀ df : DataFrame, selected_with_keep df = selected_by_category df)
  ∧ (∀ g, load_modified_dataset g = load_by_category g).
Proof.
  split.
  - intros df. unfold selected_with_keep, selected_by_category. cbv zeta.
    rewrite (df_getitem_setitem_other _ "keep" "category") by discriminate.
    rewrite df_getitem_setitem_same.
    unfold df_getitem. case_bool_decide; [|reflexivity].
    cbn [mbind result_bind]. rewrite series_and_keep. cbn [mbind result_bind].
    unfold df_setitem. cbn [df_rows].
    rewrite select_rows_isin, select_rows_isin_id.
    cbn [mbind result_bind mret result_ret].
    f_equal. rewrite <- !list_fmap_compose. by apply list_fmap_ext.
  - intros g. by rewrite load_modified_dataset_outcome, load_by_category_outcome.
Qed.

(** ** The provisioning cell and what reaches the trainer *)

Ltac run_py := unfold mbind, Py_bind, assign, name, lift; simpl.

(** The provisioning cell in closed form: the two loads decide the outcome. *)
Lemma cell_provision_run g :
  cell_provision g =
    let g1 := bind_bnb_config
                {| load_in_4bit := true;
                   bnb_4bit_use_double_quant := false;
                   bnb_4bit_quant_type := "nf4";
                   bnb_4bit_compute_dtype := bfloat16 |}
                (bind_is_peft false (bind_model_id "mistralai/Mistral-7B-v0.1" g)) in
    match AutoModelForCausalLM_from_pretrained "mistralai/Mistral-7B-v0.1"
            {| low_cpu_mem_usage := true;
               torch_dtype_kw := float16;
               quantization_config := {| load_in_4bit := true;
                                         bnb_4bit_use_double_quant := false;
                                         bnb_4bit_quant_type := "nf4";
                                         bnb_4bit_compute_dtype := bfloat16 |};
               use_flash_attention_2 := true |} with
    | Raise e => (Raise e, g1)
    | Ok m =>
        let g2 := bind_model (set_pretraining_tp 1 m) (bind_model m g1) in
        match AutoTokenizer_from_pretrained "mistralai/Mistral-7B-v0.1" with
        | Raise e => (Raise e, g2)
        | Ok t =>
            (Ok tt,
             bind_tokenizer (set_padding_side "right" (set_pad_token (eos_token t) t))
               (bind_tokenizer (set_pad_token (eos_token t) t) (bind_tokenizer t g2)))
        end
    end.
Proof.
  unfold cell_provision. run_py.
  destruct (AutoModelForCausalLM_from_pretrained _ _) as [m|e]; simpl; [|done].
  by destruct (AutoTokenizer_from_pretrained _) as [t|e].
Qed.

(** C5: a run of the provisioning cell that does not fail ends with a
    tokenizer whose padding token is its end-of-sequence token, the one the
    loaded tokenizer came with, and whose padding side is "right"; a run
    fails only with the error of one of the two loads. *)
Theorem provision_sets_padding g :
  match cell_provision g with
  | (Ok _, g') =>
      ∃ shipped tok,
        AutoTokenizer_from_pretrained "mistralai/Mistral-7B-v0.1" = Ok shipped
        ∧ g_tokenizer g' = Some tok
        ∧ pad_token tok = eos_token tok
        ∧ eos_token tok = eos_token shipped
        ∧ padding_side tok = "right"
  | (Raise e, _) =>
      (∃ kwargs, AutoModelForCausalLM_from_pretrained "mistralai/Mistral-7B-v0.1" kwargs
                 = Raise e)
      ∨ AutoTokenizer_from_pretrained "mistralai/Mistral-7B-v0.1" = Raise e
  end.
Proof.
  rewrite cell_provision_run. cbv zeta.
  destruct (AutoModelForCausalLM_from_pretrained _ _) as [m|e] eqn:Hm; [|eauto].
  destruct (AutoTokenizer_from_pretrained _) as [t|e] eqn:Ht; [|eauto].
  exists t. eexists. split; [done|]. by split.
Qed.
(** C8: in a run of the provisioning cell that does not fail, the model is
    the one [from_pretrained] returned for a quantisation config that loads
    in 4 bit with quantisation type "nf4", carries the double-quantisation
    flag (unset) and computes in bfloat16; this config is what [bnb_config]
    is bound to. *)
Theorem provision_quantization g g' :
  cell_provision g = (Ok tt, g') →
  ∃ cfg m,
    g_bnb_config g' = Some cfg
    ∧ load_in_4bit cfg = true
    ∧ bnb_4bit_quant_type cfg = "nf4"
    ∧ bnb_4bit_use_double_quant cfg = false
    ∧ bnb_4bit_compute_dtype cfg = bfloat16
    ∧ AutoModelForCausalLM_from_pretrained "mistralai/Mistral-7B-v0.1"
        {| low_cpu_mem_usage := true;
           torch_dtype_kw := float16;
           quantization_config := cfg;
           use_flash_attention_2 := true |} = Ok m
    ∧ g_model g' = Some (set_pretraining_tp 1 m).
Proof.
  rewrite cell_provision_run. cbv zeta.
  destruct (AutoModelForCausalLM_from_pretrained _ _) as [m|e] eqn:Hm; [|done].
  destruct (AutoTokenizer_from_pretrained _) as [t|e] eqn:Ht; [|done].
  intros [= <-]. eexists _, m. simpl. by repeat split.
Qed.

Lemma bind_ok_inv {A B} (m : Py Model Trainer A) (k : A → Py Model Trainer B) g b g' :
  (m ≫= k) g = (Ok b, g') → ∃ a g1, m g = (Ok a, g1) ∧ k a g1 = (Ok b, g').
Proof.
  unfold mbind, Py_bind. destruct (m g) as [[a|e] g1]; [eauto | done].
Qed.

Lemma cell_provision_tokenizer g g' :
  cell_provision g = (Ok tt, g') →
  ∃ tok, g_tokenizer g' = Some tok ∧ padding_side tok = "right".
Proof.
  rewrite cell_provision_run. cbv zeta.
  destruct (AutoModelForCausalLM_from_pretrained _ _) as [m|e]; [|done].
  destruct (AutoTokenizer_from_pretrained _) as [t|e]; [|done].
  intros [= <-]. eexists. by split.
Qed.

(** The adapter cell rebinds [model] and [peft_config] only. *)
Lemma cell_adapters_tokenizer g :
  g_tokenizer (cell_adapters g).2 = g_tokenizer g.
Proof.
  unfold cell_adapters. run_py.
  repeat (case_match; simpl; try done).
Qed.

Lemma cell_trainer_run g g' :
  cell_trainer g = (Ok tt, g') →
  ∃ kwargs trainer,
    (trainer_kwargs g').1 = Ok kwargs
    ∧ SFTTrainer kwargs = Ok trainer
    ∧ g_trainer g' = Some trainer
    ∧ g_tokenizer g' = g_tokenizer g
    ∧ g_tokenizer g = Some (kw_tokenizer kwargs).
Proof.
  unfold cell_trainer, new_TrainingArguments, trainer_kwargs. run_py.
  destruct (TrainingArguments_post_init _) as [[]|e]; simpl; [|done].
  destruct (g_model g) as [m|] eqn:Hm; simpl; [|done].
  destruct (g_dataset g) as [d|] eqn:Hd; simpl; [|done].
  destruct (g_tokenizer g) as [t|] eqn:Ht; simpl; [|done].
  destruct (SFTTrainer _) as [tr|e] eqn:Htr; [|done].
  intros [= <-]. simpl. rewrite Hm, Hd, Ht. simpl.
  eexists _, tr. by repeat split.
Qed.

(** With [is_peft] unset, the adapter cell binds [peft_config] to rank 8
    over the seven projections and rebinds [model] to what
    [get_peft_model] returns for the prepared model and this config. *)
Lemma cell_adapters_run g g' :
  g_is_peft g = Some false →
  cell_adapters g = (Ok tt, g') →
  ∃ cfg m prepared adapted,
    g_model g = Some m
    ∧ prepare_model_for_kbit_training m = Ok prepared
    ∧ get_peft_model prepared cfg = Ok adapted
    ∧ g_model g' = Some adapted
    ∧ g_peft_config g' = Some cfg
    ∧ lora_r cfg = 8
    ∧ target_modules cfg
      = ["v_proj"; "down_proj"; "up_proj"; "o_proj"; "q_proj"; "gate_proj"; "k_proj"].
Proof.
  intros Hpeft. unfold cell_adapters. run_py. rewrite Hpeft. simpl.
  destruct (g_model g) as [m|]; simpl; [|done].
  destruct (prepare_model_for_kbit_training m) as [prepared|e] eqn:Hprep;
    simpl; [|done].
  destruct (get_peft_model prepared _) as [adapted|e] eqn:Hget; simpl; [|done].
  intros [= <-]. eexists _, m, prepared, adapted. by repeat split.
Qed.

(** C6: whatever padding side the loaded tokenizer came with, in a run of
    the notebook that reaches the trainer the tokenizer passed to
    [SFTTrainer] is the one bound to [tokenizer], and its padding side is
    "right" and so not "left". *)
Theorem training_never_pads_left g g' :
  notebook g = (Ok tt, g') →
  ∃ kwargs trainer,
    (trainer_kwargs g').1 = Ok kwargs
    ∧ SFTTrainer kwargs = Ok trainer
    ∧ g_trainer g' = Some trainer
    ∧ g_tokenizer g' = Some (kw_tokenizer kwargs)
    ∧ padding_side (kw_tokenizer kwargs) = "right"
    ∧ padding_side (kw_tokenizer kwargs) ≠ "left".
Proof.
  unfold notebook.
  intros ([] & g1 & _ & H)%bind_ok_inv.
  apply bind_ok_inv in H as ([] & g2 & Hprov & H).
  apply bind_ok_inv in H as ([] & g3 & Hadapt & Htrain).
  apply cell_provision_tokenizer in Hprov as (tok & Htok & Hside).
  pose proof (cell_adapters_tokenizer g2) as Hsame. rewrite Hadapt in Hsame.
  simpl in Hsame. rewrite Htok in Hsame.
  apply cell_trainer_run in Htrain as (kwargs & tr & Hkw & Hcall & Htr & Hg' & Hg3).
  exists kwargs, tr. rewrite Hg3 in Hsame. injection Hsame as Hsame.
  rewrite Hg', Hg3, Hsame, Hside.
  repeat split; done.
Qed.
(** ** More on the prompt formatter *)

(** What the formatter makes of any three values. *)
Lemma format_instruction_values sample g (c i r : pyval) :
  sample !! "context" = Some c →
  sample !! "instruction" = Some i →
  sample !! "response" = Some r →
  format_instruction sample g = (Ok (prompt (py_str c) (py_str i) (py_str r)), g).
Proof.
  intros Hc Hi Hr. unfold format_instruction, dict_getitem.
  rewrite Hc, Hi, Hr. reflexivity.
Qed.



(** X3: the formatter reads the keys context, instruction and response and
    no other: two dicts that agree on these three are formatted alike. *)
Theorem format_instruction_other_keys (s1 s2 : Row) g :
  s1 !! "context" = s2 !! "context" →
  s1 !! "instruction" = s2 !! "instruction" →
  s1 !! "response" = s2 !! "response" →
  format_instruction s1 g = format_instruction s2 g.
Proof.
  intros Hc Hi Hr. unfold format_instruction, dict_getitem.
  by rewrite Hc, Hi, Hr.
Qed.

(** X4: a context that is [None] is not left out and not replaced by the
    empty string: the template gets the four letters None where a string
    context would stand. *)
Theorem format_instruction_none_context sample g (i r : string) :
  sample !! "context" = Some VNone →
  sample !! "instruction" = Some (VStr i) →
  sample !! "response" = Some (VStr r) →
  format_instruction sample g
  = (Ok ("### Context:" +:+ LF +:+ "None" +:+ LF +:+ LF +:+
         "### Question:" +:+ LF +:+ "Using only the context above, " +:+ i +:+ LF +:+ LF +:+
         "### Response:" +:+ LF +:+ r +:+ LF), g).
Proof. intros Hc Hi Hr. by rewrite (format_instruction_values _ _ _ _ _ Hc Hi Hr). Qed.

Lemma raw_record_context (i c r : string) : raw_record i c r !! "context" = Some (VStr c).
Proof.
  unfold raw_record. rewrite lookup_insert_ne by discriminate.
  by rewrite lookup_insert_eq.
Qed.

Lemma raw_record_instruction (i c r : string) :
  raw_record i c r !! "instruction" = Some (VStr i).
Proof. unfold raw_record. by rewrite lookup_insert_eq. Qed.

Lemma raw_record_response (i c r : string) : raw_record i c r !! "response" = Some (VStr r).
Proof.
  unfold raw_record. rewrite !lookup_insert_ne by discriminate.
  by rewrite lookup_singleton_eq.
Qed.

(** X5: the fields are not escaped, so the text does not tell where the
    context ends.  A record whose context holds the question header and a
    record whose instruction holds it are different records with the same
    text. *)
Theorem format_instruction_not_injective (a b x r : string) g :
  let header := LF +:+ LF +:+ "### Question:" +:+ LF +:+ "Using only the context above, " in
  raw_record x (a +:+ header +:+ b) r ≠ raw_record (b +:+ header +:+ x) a r
  ∧ format_instruction (raw_record x (a +:+ header +:+ b) r) g
    = format_instruction (raw_record (b +:+ header +:+ x) a r) g.
Proof.
  intros header. split.
  - intros Heq. apply (f_equal (λ d : Row, d !! "context")) in Heq.
    rewrite !raw_record_context in Heq. injection Heq as Heq.
    apply (f_equal String.length) in Heq.
    rewrite !string_app_length in Heq. unfold header in Heq. simpl in Heq. lia.
  - rewrite (format_instruction_text _ _ _ _ _ (raw_record_context _ _ _)
               (raw_record_instruction _ _ _) (raw_record_response _ _ _)).
    rewrite (format_instruction_text _ _ _ _ _ (raw_record_context _ _ _)
               (raw_record_instruction _ _ _) (raw_record_response _ _ _)).
    do 2 f_equal. unfold prompt, header.
    rewrite !string_app_assoc. reflexivity.
Qed.

(** ** More on the dataset loader *)

Lemma missing_columns_nil_inv (have cols : list string) :
  missing_columns have cols = [] → cols ⊆ have.
Proof.
  unfold missing_columns. intros Hnil c Hc.
  destruct (decide (c ∈ have)) as [|Hout]; [done|].
  by destruct (filter_nil_not_elem_of _ _ c Hnil Hout).
Qed.

Lemma filter_fmap_comm {A B} (P : B → Prop) `{!∀ y, Decision (P y)}
    (f : A → B) (l : list A) :
  filter P (f <$> l) = f <$> filter (λ x, P (f x)) l.
Proof.
  induction l as [|x l IH]; [done|].
  rewrite fmap_cons, !filter_cons, IH. by case_decide.
Qed.

Lemma filter_none {A} (P : A → Prop) `{!∀ x, Decision (P x)} (l : list A) :
  (∀ x, x ∈ l → ¬ P x) → filter P l = [].
Proof.
  intros Hnone. apply elem_of_nil_inv. intros x [HP Hx]%list_elem_of_filter.
  by apply (Hnone x).
Qed.

Lemma length_filter_all {A} (P : A → Prop) `{!∀ x, Decision (P x)} (l : list A) :
  length (filter P l) = length l ↔ Forall P l.
Proof.
  induction l as [|x l IH]; [by split|].
  rewrite filter_cons, Forall_cons. case_decide as HP; simpl.
  - rewrite <- IH. split; [intros [= ?] | intros [_ ?]]; auto.
  - pose proof (length_filter P l). split; [lia | tauto].
Qed.

(** When the library answers with [d], the loader returns the kept rows or
    the [KeyError] of the columns that are not there. *)
Lemma load_modified_dataset_answer g (d : Dataset) :
  load_dataset "databricks/databricks-dolly-15k" "train" = Ok d →
  load_modified_dataset g
  = (if bool_decide ("category" ∈ features d) then
       match missing_columns (features d) kept_columns with
       | [] => Ok {| features := kept_columns; ds_rows := kept_rows d |}
       | c :: rest => Raise (KeyErrorNotInIndex (c :: rest))
       end
     else Raise (KeyError "category"), g).
Proof. intros Hload. by rewrite load_modified_dataset_outcome, Hload. Qed.

Lemma load_modified_dataset_columns g (d : Dataset) :
  load_dataset "databricks/databricks-dolly-15k" "train" = Ok d →
  ["category"; "instruction"; "context"; "response"] ⊆ features d →
  load_modified_dataset g
  = (Ok {| features := kept_columns; ds_rows := kept_rows d |}, g).
Proof.
  intros Hload Hcols. rewrite (load_modified_dataset_answer g d Hload).
  rewrite bool_decide_eq_true_2 by (apply Hcols; by left).
  rewrite missing_columns_nil; [done|].
  intros c Hc. apply Hcols. by right.
Qed.

(** X6: when [load_dataset] raises, the loader raises the same error, the
    cell leaves [dataset] and every other variable as they were, and the
    notebook stops there. *)
Theorem load_dataset_failure_is_fatal g e :
  load_dataset "databricks/databricks-dolly-15k" "train" = Raise e →
  load_modified_dataset g = (Raise e, g)
  ∧ cell_dataset g = (Raise e, g)
  ∧ notebook g = (Raise e, g).
Proof.
  intros Hload.
  assert (load_modified_dataset g = (Raise e, g)) as Hl.
  { by rewrite load_modified_dataset_outcome, Hload. }
  assert (cell_dataset g = (Raise e, g)) as Hc.
  { unfold cell_dataset, mbind, Py_bind. by rewrite Hl. }
  split; [done|]. split; [done|].
  unfold notebook, mbind, Py_bind. by rewrite Hc.
Qed.

(** X7: a table that lacks a column makes the loader raise [KeyError].
    Without the category column it is the [KeyError] of category, whatever
    else is missing, since the mask is built before the columns are
    selected.  With it, it is one [KeyError] that names every column missing
    among instruction, context and response, in this order. *)
Theorem load_modified_dataset_key_error g (d : Dataset) :
  load_dataset "databricks/databricks-dolly-15k" "train" = Ok d →
  ¬ (["category"; "instruction"; "context"; "response"] ⊆ features d) →
  load_modified_dataset g
  = (Raise (if bool_decide ("category" ∈ features d)
            then KeyErrorNotInIndex
                   (filter (λ c, c ∉ features d) ["instruction"; "context"; "response"])
            else KeyError "category"), g).
Proof.
  intros Hload Hcols. rewrite (load_modified_dataset_answer g d Hload).
  case_bool_decide as Hcat; [|done].
  unfold missing_columns, kept_columns.
  destruct (filter _ _) as [|c rest] eqn:Hmiss; [|done].
  destruct Hcols. apply (missing_columns_nil_inv (features d)) in Hmiss.
  intros c [->|Hc]%elem_of_cons; [done | by apply Hmiss].
Qed.

(** X8: the loader returns a table exactly when the library answers with a
    table that has the columns category, instruction, context and response;
    nothing is asked of the rows. *)
Theorem load_modified_dataset_returns_iff g :
  (∃ out, load_modified_dataset g = (Ok out, g))
  ↔ ∃ d, load_dataset "databricks/databricks-dolly-15k" "train" = Ok d
         ∧ ["category"; "instruction"; "context"; "response"] ⊆ features d.
Proof.
  split.
  - intros [out Hout].
    destruct (load_dataset "databricks/databricks-dolly-15k" "train") as [d|e] eqn:Hload.
    + exists d. split; [done|].
      rewrite (load_modified_dataset_answer g d Hload) in Hout.
      case_bool_decide as Hcat; [|done].
      destruct (missing_columns _ _) eqn:Hmiss; [|done].
      apply missing_columns_nil_inv in Hmiss.
      intros c [->|Hc]%elem_of_cons; [done | by apply Hmiss].
    + by rewrite load_modified_dataset_outcome, Hload in Hout.
  - intros (d & Hload & Hcols). eexists.
    by apply load_modified_dataset_columns.
Qed.

(** X9: a table without a row of an allowed category, the empty table
    among them, gives the empty table with the three columns, not an
    error. *)
Theorem load_modified_dataset_nothing_kept g (d : Dataset) :
  load_dataset "databricks/databricks-dolly-15k" "train" = Ok d →
  ["category"; "instruction"; "context"; "response"] ⊆ features d →
  (∀ r, r ∈ ds_rows d → ¬ category_allowed r) →
  load_modified_dataset g
  = (Ok {| features := ["instruction"; "context"; "response"]; ds_rows := [] |}, g).
Proof.
  intros Hload Hcols Hnone. rewrite (load_modified_dataset_columns g d Hload Hcols).
  unfold kept_rows. by rewrite filter_none.
Qed.

(** X10: the loader keeps the order of the rows and adds none: what it
    returns is a sublist of the source rows cut down to the three columns,
    and it is as long as the source exactly when every source row has an
    allowed category. *)
Theorem load_modified_dataset_sublist g (d out : Dataset) :
  load_dataset "databricks/databricks-dolly-15k" "train" = Ok d →
  load_modified_dataset g = (Ok out, g) →
  ds_rows out `sublist_of` (restrict ["instruction"; "context"; "response"] <$> ds_rows d)
  ∧ (length (ds_rows out) ≤ length (ds_rows d))%nat
  ∧ (length (ds_rows out) = length (ds_rows d) ↔ Forall category_allowed (ds_rows d)).
Proof.
  intros Hload. rewrite (load_modified_dataset_answer g d Hload).
  case_bool_decide; [|done]. destruct (missing_columns _ _); [|done].
  intros [= <-]. cbn [ds_rows]. unfold kept_rows. fold kept_columns.
  split; [apply fmap_sublist, sublist_filter|].
  rewrite length_fmap. split; [apply length_filter | apply length_filter_all].
Qed.

Lemma category_allowed_insert_keep v (r : Row) :
  category_allowed (<["keep" := v]> r) ↔ category_allowed r.
Proof. unfold category_allowed. by rewrite lookup_insert_ne. Qed.

(** X11: a [keep] column the source table already has does not count: it
    is overwritten before it is read, so rows it marks False are kept all
    the same. *)
Theorem load_modified_dataset_overwrites_keep g (d : Dataset)
    (rows : list Row) (flag : Row → pyval) :
  load_dataset "databricks/databricks-dolly-15k" "train" = Ok d →
  ["category"; "instruction"; "context"; "response"] ⊆ features d →
  ds_rows d = (λ r, <["keep" := flag r]> r) <$> rows →
  load_modified_dataset g
  = (Ok {| features := ["instruction"; "context"; "response"];
           ds_rows := restrict ["instruction"; "context"; "response"]
                        <$> filter category_allowed rows |}, g).
Proof.
  intros Hload Hcols Hrows. rewrite (load_modified_dataset_columns g d Hload Hcols).
  unfold kept_rows. rewrite Hrows, filter_fmap_comm, <- list_fmap_compose.
  rewrite (list_filter_iff _ category_allowed)
    by (intros r; apply category_allowed_insert_keep).
  do 3 f_equal. apply list_fmap_ext. intros _ r _. simpl.
  apply restrict_insert_other, keep_not_kept.
Qed.

(** X12: on a table with a cell in every column, every row the loader
    returns can be formatted, and its text is the text of the source row
    it comes from. *)
Theorem loaded_rows_format g g0 (d : Dataset) :
  load_dataset "databricks/databricks-dolly-15k" "train" = Ok d →
  ["category"; "instruction"; "context"; "response"] ⊆ features d →
  well_formed d →
  ∃ out, load_modified_dataset g = (Ok out, g)
    ∧ ∀ r', r' ∈ ds_rows out →
        ∃ r text, r ∈ ds_rows d ∧ category_allowed r
          ∧ format_instruction r' g0 = (Ok text, g0)
          ∧ format_instruction r g0 = (Ok text, g0).
Proof.
  intros Hload Hcols Hwf. eexists. split; [by apply load_modified_dataset_columns|].
  cbn [ds_rows]. unfold kept_rows.
  intros r' (r & -> & [Hallowed Hr]%list_elem_of_filter)%list_elem_of_fmap.
  assert (∀ k, k ∈ kept_columns → is_Some (r !! k)) as Hcell.
  { intros k Hk. apply elem_of_dom.
    unfold well_formed in Hwf. rewrite Forall_forall in Hwf.
    rewrite (Hwf r Hr). apply elem_of_list_to_set, Hcols. by right. }
  destruct (Hcell "context") as [c Hc]; [unfold kept_columns; set_solver|].
  destruct (Hcell "instruction") as [i Hi]; [unfold kept_columns; set_solver|].
  destruct (Hcell "response") as [s Hs]; [unfold kept_columns; set_solver|].
  exists r, (prompt (py_str c) (py_str i) (py_str s)).
  split; [done|]. split; [done|].
  split; [|by apply format_instruction_values].
  apply format_instruction_values;
    by rewrite restrict_lookup by (unfold kept_columns; set_solver).
Qed.

(** ** More on the cells *)

Lemma bind_run {A B} (m : Py Model Trainer A) (k : A → Py Model Trainer B) g :
  (m ≫= k) g
  = match m g with
    | (Ok a, g1) => k a g1
    | (Raise e, g1) => (Raise e, g1)
    end.
Proof. reflexivity. Qed.

Lemma cell_dataset_run g :
  cell_dataset g
  = match loader_outcome (load_dataset "databricks/databricks-dolly-15k" "train") with
    | Ok d => (Ok tt, bind_dataset d g)
    | Raise e => (Raise e, g)
    end.
Proof.
  unfold cell_dataset. rewrite bind_run, load_modified_dataset_outcome.
  by destruct (loader_outcome _).
Qed.

(** The provisioning cell, with the values it binds named. *)
Lemma cell_provision_eval g :
  cell_provision g =
    let g1 := bind_bnb_config bnb_config (bind_is_peft false (bind_model_id model_id g)) in
    match AutoModelForCausalLM_from_pretrained model_id model_kwargs with
    | Raise e => (Raise e, g1)
    | Ok m =>
        let g2 := bind_model (set_pretraining_tp 1 m) (bind_model m g1) in
        match AutoTokenizer_from_pretrained model_id with
        | Raise e => (Raise e, g2)
        | Ok t =>
            (Ok tt,
             bind_tokenizer (provisioned t)
               (bind_tokenizer (set_pad_token (eos_token t) t) (bind_tokenizer t g2)))
        end
    end.
Proof. apply cell_provision_run. Qed.

(** The adapter cell with [is_peft] unset and a model bound: the two calls
    decide the outcome. *)
Lemma cell_adapters_eval g m :
  g_is_peft g = Some false →
  g_model g = Some m →
  cell_adapters g =
    let g1 := bind_peft_config peft_config g in
    match prepare_model_for_kbit_training m with
    | Raise e => (Raise e, g1)
    | Ok p =>
        match get_peft_model p peft_config with
        | Raise e => (Raise e, bind_model p g1)
        | Ok a => (Ok tt, bind_model a (bind_model p g1))
        end
    end.
Proof.
  intros Hpeft Hm. unfold cell_adapters. run_py. rewrite Hpeft, Hm. simpl.
  destruct (prepare_model_for_kbit_training m) as [p|e]; simpl; [|done].
  by destruct (get_peft_model p _) as [a|e].
Qed.

(** The trainer cell with the three names bound: the constructor of the
    arguments and the call of the trainer decide the outcome. *)
Lemma cell_trainer_eval g m d t :
  g_model g = Some m →
  g_dataset g = Some d →
  g_tokenizer g = Some t →
  cell_trainer g =
    match TrainingArguments_post_init args with
    | Raise e => (Raise e, g)
    | Ok _ =>
        let g1 := bind_max_seq_length 2048 (bind_args args g) in
        match SFTTrainer {| kw_model := m;
                            kw_train_dataset := d;
                            kw_tokenizer := t;
                            kw_max_seq_length := 2048;
                            kw_packing := true;
                            kw_formatting_func := format_instruction;
                            kw_args := args |} with
        | Raise e => (Raise e, g1)
        | Ok tr => (Ok tt, bind_trainer tr g1)
        end
    end.
Proof.
  intros Hm Hd Ht. unfold cell_trainer, new_TrainingArguments, trainer_kwargs. run_py.
  change (TrainingArguments_post_init _) with (TrainingArguments_post_init args).
  destruct (TrainingArguments_post_init args) as [[]|e]; simpl; [|done].
  rewrite Hm, Hd, Ht. simpl.
  by destruct (SFTTrainer _) as [tr|e].
Qed.

(** X13: whatever its outcome, the provisioning cell leaves [dataset],
    [peft_config], [args], [max_seq_length] and [trainer] as they were and
    binds [model_id], [is_peft] (to False) and [bnb_config], also when a
    load fails afterwards. *)
Theorem cell_provision_frame g :
  let g' := (cell_provision g).2 in
  g_dataset g' = g_dataset g
  ∧ g_peft_config g' = g_peft_config g
  ∧ g_args g' = g_args g
  ∧ g_max_seq_length g' = g_max_seq_length g
  ∧ g_trainer g' = g_trainer g
  ∧ g_model_id g' = Some "mistralai/Mistral-7B-v0.1"
  ∧ g_is_peft g' = Some false
  ∧ g_bnb_config g' = Some bnb_config.
Proof.
  rewrite cell_provision_eval. cbv zeta.
  destruct (AutoModelForCausalLM_from_pretrained _ _) as [m|e]; [|done].
  by destruct (AutoTokenizer_from_pretrained _) as [t|e].
Qed.

(** X14: when the model fails to load, the cell raises that error without
    touching [model] or [tokenizer]: what an earlier run bound to them,
    padding side included, stays bound. *)
Theorem cell_provision_model_failure g e :
  AutoModelForCausalLM_from_pretrained model_id model_kwargs = Raise e →
  (cell_provision g).1 = Raise e
  ∧ g_model (cell_provision g).2 = g_model g
  ∧ g_tokenizer (cell_provision g).2 = g_tokenizer g.
Proof. intros Hm. rewrite cell_provision_eval. cbv zeta. by rewrite Hm. Qed.

(** X15: when the tokenizer fails to load, the cell raises that error with
    [model] already rebound to the newly loaded model and [tokenizer] still
    what it was before. *)
Theorem cell_provision_tokenizer_failure g m e :
  AutoModelForCausalLM_from_pretrained model_id model_kwargs = Ok m →
  AutoTokenizer_from_pretrained model_id = Raise e →
  (cell_provision g).1 = Raise e
  ∧ g_model (cell_provision g).2 = Some (set_pretraining_tp 1 m)
  ∧ g_tokenizer (cell_provision g).2 = g_tokenizer g.
Proof. intros Hm Ht. rewrite cell_provision_eval. cbv zeta. by rewrite Hm, Ht. Qed.

(** X16: whatever its outcome and whichever branch it takes, the adapter
    cell rebinds nothing but [model] and [peft_config]. *)
Theorem cell_adapters_frame g :
  let g' := (cell_adapters g).2 in
  g_dataset g' = g_dataset g
  ∧ g_model_id g' = g_model_id g
  ∧ g_is_peft g' = g_is_peft g
  ∧ g_bnb_config g' = g_bnb_config g
  ∧ g_tokenizer g' = g_tokenizer g
  ∧ g_args g' = g_args g
  ∧ g_max_seq_length g' = g_max_seq_length g
  ∧ g_trainer g' = g_trainer g.
Proof.
  unfold cell_adapters. run_py.
  repeat (case_match; simpl; try done).
Qed.

(** X17: with [is_peft] set, the adapter cell does not build a config and
    does not call [get_peft_model]: [model] becomes the prepared model with
    only its adapters marked trainable, and [peft_config] stays as it was. *)
Theorem cell_adapters_peft_branch g g' :
  g_is_peft g = Some true →
  cell_adapters g = (Ok tt, g') →
  ∃ m prepared marked,
    g_model g = Some m
    ∧ prepare_model_for_kbit_training m = Ok prepared
    ∧ mark_only_adapters_as_trainable prepared = Ok marked
    ∧ g_model g' = Some marked
    ∧ g_peft_config g' = g_peft_config g.
Proof.
  intros Hpeft. unfold cell_adapters. run_py. rewrite Hpeft. simpl.
  destruct (g_model g) as [m|]; simpl; [|done].
  destruct (prepare_model_for_kbit_training m) as [p|e] eqn:Hp; simpl; [|done].
  destruct (mark_only_adapters_as_trainable p) as [a|e] eqn:Ha; simpl; [|done].
  intros [= <-]. exists m, p, a. by repeat split.
Qed.

(** X18: when [get_peft_model] raises, the adapter cell has already
    rebound [model] to the prepared model and bound [peft_config]; running
    the cell again would prepare the prepared model. *)
Theorem cell_adapters_peft_failure g m prepared e :
  g_is_peft g = Some false →
  g_model g = Some m →
  prepare_model_for_kbit_training m = Ok prepared →
  get_peft_model prepared peft_config = Raise e →
  (cell_adapters g).1 = Raise e
  ∧ g_model (cell_adapters g).2 = Some prepared
  ∧ g_peft_config (cell_adapters g).2 = Some peft_config.
Proof.
  intros Hpeft Hm Hp Ha. rewrite (cell_adapters_eval g m Hpeft Hm). cbv zeta.
  by rewrite Hp, Ha.
Qed.

(** X19: run before the cells that bind them, the trainer cell first
    builds the training arguments.  When their constructor raises (bf16 or
    tf32 on a host without them), the cell raises that error and binds
    nothing.  When it returns, the cell raises [NameError] for the first
    unbound name among model, dataset and tokenizer; by then it has bound
    [args] and [max_seq_length], and [trainer] is as it was. *)
Theorem cell_trainer_unbound g n :
  head (trainer_unbound g) = Some n →
  match TrainingArguments_post_init args with
  | Raise e => cell_trainer g = (Raise e, g)
  | Ok _ =>
      (cell_trainer g).1 = Raise (NameError n)
      ∧ g_args (cell_trainer g).2 = Some args
      ∧ g_max_seq_length (cell_trainer g).2 = Some 2048
      ∧ g_trainer (cell_trainer g).2 = g_trainer g
  end.
Proof.
  unfold trainer_unbound, unbound, cell_trainer, new_TrainingArguments, trainer_kwargs.
  run_py.
  change (TrainingArguments_post_init _) with (TrainingArguments_post_init args).
  destruct (TrainingArguments_post_init args) as [[]|e]; simpl; [|done].
  destruct (g_model g); simpl; [|by intros [= <-]].
  destruct (g_dataset g); simpl; [|by intros [= <-]].
  destruct (g_tokenizer g); simpl; [done | by intros [= <-]].
Qed.

(** ** The notebook as a whole *)

(** A run of the cells in order, from any state: its result and, when it
    does not fail, its final state are those of [notebook_outcome]. *)
Ltac settle :=
  unfold notebook_outcome;
  repeat match goal with
         | H : _ = Ok _ |- _ => rewrite H; clear H; cbn [mbind result_bind]
         | H : _ = Raise _ |- _ => rewrite H; clear H; cbn [mbind result_bind]
         end;
  split; [reflexivity | intros ? Hno; first [discriminate Hno | by injection Hno as <-]].

Lemma notebook_run g :
  (notebook g).1 = (notebook_outcome ≫= λ _, Ok tt)
  ∧ ∀ final, notebook_outcome = Ok final → (notebook g).2 = final.
Proof.
  unfold notebook.
  rewrite bind_run, cell_dataset_run.
  destruct (loader_outcome _) as [d|e] eqn:Hd; [|settle].
  rewrite bind_run, cell_provision_eval. cbv zeta.
  destruct (AutoModelForCausalLM_from_pretrained _ _) as [m|e] eqn:Hm; [|settle].
  destruct (AutoTokenizer_from_pretrained _) as [t|e] eqn:Ht; [|settle].
  rewrite bind_run.
  erewrite cell_adapters_eval by reflexivity. cbv zeta.
  destruct (prepare_model_for_kbit_training _) as [p|e] eqn:Hp; [|settle].
  destruct (get_peft_model _ _) as [a|e] eqn:Ha; [|settle].
  erewrite cell_trainer_eval by reflexivity. cbv zeta.
  destruct (TrainingArguments_post_init args) as [[]|e] eqn:Hargs; [|settle].
  destruct (SFTTrainer _) as [tr|e] eqn:Htr; settle.
Qed.

(** X20: a run of the notebook that reaches the end has built the trainer
    from the adapted model (the loaded model, its [pretraining_tp] set,
    prepared for k-bit training, with the adapters of [peft_config]), the
    filtered dataset, the tokenizer with right padding, [format_instruction]
    as formatting function, packing on and length 2048; and every variable
    is bound to the value of this run. *)
Theorem notebook_wiring g g' :
  notebook g = (Ok tt, g') →
  ∃ d m t prepared adapted trainer,
    load_dataset "databricks/databricks-dolly-15k" "train" = Ok d
    ∧ AutoModelForCausalLM_from_pretrained model_id model_kwargs = Ok m
    ∧ AutoTokenizer_from_pretrained model_id = Ok t
    ∧ prepare_model_for_kbit_training (set_pretraining_tp 1 m) = Ok prepared
    ∧ get_peft_model prepared peft_config = Ok adapted
    ∧ TrainingArguments_post_init args = Ok tt
    ∧ SFTTrainer {| kw_model := adapted;
                    kw_train_dataset := {| features := kept_columns;
                                           ds_rows := kept_rows d |};
                    kw_tokenizer := provisioned t;
                    kw_max_seq_length := 2048;
                    kw_packing := true;
                    kw_formatting_func := format_instruction;
                    kw_args := args |} = Ok trainer
    ∧ g' = mkGlobals (Some {| features := kept_columns; ds_rows := kept_rows d |})
             (Some model_id) (Some false) (Some bnb_config) (Some adapted)
             (Some (provisioned t)) (Some peft_config) (Some args) (Some 2048)
             (Some trainer).
Proof.
  intros Hrun. destruct (notebook_run g) as [Hres Hfinal].
  rewrite Hrun in Hres, Hfinal. cbn [fst snd] in Hres, Hfinal.
  unfold notebook_outcome, loader_outcome in Hres, Hfinal.
  destruct (load_dataset _ _) as [d|e] eqn:Hd; [|done].
  cbn [mbind result_bind] in Hres, Hfinal.
  destruct (bool_decide _); [|done].
  destruct (missing_columns _ _); [|done].
  cbn [mbind result_bind] in Hres, Hfinal.
  destruct (AutoModelForCausalLM_from_pretrained _ _) as [m|e] eqn:Hm; [|done].
  cbn [mbind result_bind] in Hres, Hfinal.
  destruct (AutoTokenizer_from_pretrained _) as [t|e] eqn:Ht; [|done].
  cbn [mbind result_bind] in Hres, Hfinal.
  destruct (prepare_model_for_kbit_training _) as [p|e] eqn:Hp; [|done].
  cbn [mbind result_bind] in Hres, Hfinal.
  destruct (get_peft_model _ _) as [a|e] eqn:Ha; [|done].
  cbn [mbind result_bind] in Hres, Hfinal.
  destruct (TrainingArguments_post_init _) as [[]|e] eqn:Hargs; [|done].
  cbn [mbind result_bind] in Hres, Hfinal.
  destruct (SFTTrainer _) as [tr|e] eqn:Htr; [|done].
  cbn [mbind result_bind] in Hfinal.
  exists d, m, t, p, a, tr. repeat split; try done.
  apply Hfinal. reflexivity.
Qed.

(** X21: when the table has the four columns and each library call, the
    constructor of the training arguments among them, succeeds on what the
    cells pass to it, the notebook runs to the end from any state: no cell
    reads a name that an earlier cell of the run has not bound. *)
Theorem notebook_completes g (d : Dataset) m t prepared adapted trainer :
  load_dataset "databricks/databricks-dolly-15k" "train" = Ok d →
  ["category"; "instruction"; "context"; "response"] ⊆ features d →
  AutoModelForCausalLM_from_pretrained model_id model_kwargs = Ok m →
  AutoTokenizer_from_pretrained model_id = Ok t →
  prepare_model_for_kbit_training (set_pretraining_tp 1 m) = Ok prepared →
  get_peft_model prepared peft_config = Ok adapted →
  TrainingArguments_post_init args = Ok tt →
  SFTTrainer {| kw_model := adapted;
                kw_train_dataset := {| features := kept_columns; ds_rows := kept_rows d |};
                kw_tokenizer := provisioned t;
                kw_max_seq_length := 2048;
                kw_packing := true;
                kw_formatting_func := format_instruction;
                kw_args := args |} = Ok trainer →
  (notebook g).1 = Ok tt
  ∧ g_trainer (notebook g).2 = Some trainer
  ∧ g_model (notebook g).2 = Some adapted
  ∧ g_dataset (notebook g).2
    = Some {| features := kept_columns; ds_rows := kept_rows d |}.
Proof.
  intros Hd Hcols Hm Ht Hp Ha Hargs Htr.
  destruct (notebook_run g) as [Hres Hfinal].
  assert (notebook_outcome
          = Ok (mkGlobals (Some {| features := kept_columns; ds_rows := kept_rows d |})
                  (Some model_id) (Some false) (Some bnb_config) (Some adapted)
                  (Some (provisioned t)) (Some peft_config) (Some args) (Some 2048)
                  (Some trainer))) as Hout.
  { unfold notebook_outcome, loader_outcome. rewrite Hd. cbn [mbind result_bind].
    rewrite bool_decide_eq_true_2 by (apply Hcols; by left).
    rewrite missing_columns_nil by (intros c Hc; apply Hcols; by right).
    rewrite Hm. cbn [mbind result_bind]. rewrite Ht. cbn [mbind result_bind].
    rewrite Hp. cbn [mbind result_bind]. rewrite Ha. cbn [mbind result_bind].
    rewrite Hargs. cbn [mbind result_bind].
    by rewrite Htr. }
  rewrite Hres, (Hfinal _ Hout), Hout. done.
Qed.

(** X22: a run of the notebook does not depend on what was bound before.
    From any two states it ends the same way, with the same error if it
    fails, and when it reaches the end the final states are equal: every
    variable has been rebound. *)
Theorem notebook_ignores_state g1 g2 :
  (notebook g1).1 = (notebook g2).1
  ∧ ((notebook g1).1 = Ok tt → (notebook g1).2 = (notebook g2).2).
Proof.
  destruct (notebook_run g1) as [Hres1 Hfinal1].
  destruct (notebook_run g2) as [Hres2 Hfinal2].
  split; [by rewrite Hres1, Hres2|].
  rewrite Hres1. destruct notebook_outcome as [final|e]; [|done].
  intros _. by rewrite (Hfinal1 final), (Hfinal2 final).
Qed.

End Properties.

(** * The theorems on examples *)

#[local] Existing Instance Fixture.libs.

(** The template around a record with an empty context. *)
Lemma format_instruction_sections_witness :
  ∃ out, format_instruction (raw_record "What is water?" "" "H2O") Fixture.fresh
         = (Ok out, Fixture.fresh)
    ∧ out = "### Context:" +:+ LF +:+ "" +:+ LF +:+ LF +:+
            "### Question:" +:+ LF +:+ "Using only the context above, "
              +:+ "What is water?" +:+ LF +:+ LF +:+
            "### Response:" +:+ LF +:+ "H2O" +:+ LF
    ∧ occur_in_order
        ["### Context:"; ""; "### Question:"; "What is water?"; "### Response:"; "H2O"]
        out
    ∧ String.length out
      = (76 + String.length "" + String.length "What is water?" + String.length "H2O")%nat.
Proof.
  apply (format_instruction_sections
           (raw_record "What is water?" "" "H2O") Fixture.fresh "" "What is water?" "H2O");
    reflexivity.
Defined.

(** The three-row table: the creative_writing row goes, the closed_qa row
    and the open_qa row stay. *)
Lemma load_modified_dataset_keeps_witness :
  (load_modified_dataset Fixture.fresh).1
  = Ok {| features := ["instruction"; "context"; "response"];
          ds_rows := [raw_record "Who wrote it?" "Ann wrote it." "Ann";
                      raw_record "What is water?" "" "H2O"] |}
  ∧ ∃ out, load_modified_dataset Fixture.fresh = (Ok out, Fixture.fresh)
    ∧ features out = ["instruction"; "context"; "response"]
    ∧ ds_rows out
      = restrict ["instruction"; "context"; "response"]
          <$> filter
                (λ r : Row,
                   r !! "category"
                   ∈ [Some (VStr "closed_qa"); Some (VStr "information_extraction");
                      Some (VStr "open_qa")])
                (ds_rows Fixture.dolly)
    ∧ (∀ r, r ∈ ds_rows Fixture.dolly →
         r !! "category"
         ∈ [Some (VStr "closed_qa"); Some (VStr "information_extraction");
            Some (VStr "open_qa")] →
         restrict ["instruction"; "context"; "response"] r ∈ ds_rows out)
    ∧ (∀ r', r' ∈ ds_rows out →
         ∃ r, r ∈ ds_rows Fixture.dolly
           ∧ r !! "category"
             ∈ [Some (VStr "closed_qa"); Some (VStr "information_extraction");
                Some (VStr "open_qa")]
           ∧ dom r' = {[ "instruction"; "context"; "response" ]}
           ∧ r' !! "instruction" = r !! "instruction"
           ∧ r' !! "context" = r !! "context"
           ∧ r' !! "response" = r !! "response").
Proof.
  split; [vm_compute; reflexivity|].
  apply (load_modified_dataset_keeps Fixture.fresh Fixture.dolly).
  - reflexivity.
  - intros c Hc. vm_compute in Hc |- *.
    repeat (apply elem_of_cons in Hc as [->|Hc]; [repeat constructor|]).
    by apply elem_of_nil in Hc.
  - repeat constructor.
Defined.


(** The stand-in libraries load a model and a tokenizer: the cell completes
    and the config is the 4-bit one. *)
Lemma provision_quantization_witness :
  ∃ cfg m,
    g_bnb_config (cell_provision Fixture.fresh).2 = Some cfg
    ∧ load_in_4bit cfg = true
    ∧ bnb_4bit_quant_type cfg = "nf4"
    ∧ bnb_4bit_use_double_quant cfg = false
    ∧ bnb_4bit_compute_dtype cfg = bfloat16
    ∧ AutoModelForCausalLM_from_pretrained "mistralai/Mistral-7B-v0.1"
        {| low_cpu_mem_usage := true;
           torch_dtype_kw := float16;
           quantization_config := cfg;
           use_flash_attention_2 := true |} = Ok m
    ∧ g_model (cell_provision Fixture.fresh).2
      = Some (set_pretraining_tp 1 m).
Proof.
  apply (provision_quantization Fixture.fresh).
  reflexivity.
Defined.

(** The stand-in tokenizer ships with left padding; the run reaches the
    trainer with right padding. *)
Lemma training_never_pads_left_witness :
  padding_side Fixture.shipped_tokenizer = "left"
  ∧ ∃ kwargs trainer,
      (trainer_kwargs (notebook Fixture.fresh).2).1 = Ok kwargs
      ∧ SFTTrainer kwargs = Ok trainer
      ∧ g_trainer (notebook Fixture.fresh).2 = Some trainer
      ∧ g_tokenizer (notebook Fixture.fresh).2
        = Some (kw_tokenizer kwargs)
      ∧ padding_side (kw_tokenizer kwargs) = "right"
      ∧ padding_side (kw_tokenizer kwargs) ≠ "left".
Proof.
  split; [reflexivity|].
  apply (training_never_pads_left Fixture.fresh).
  vm_compute. reflexivity.
Defined.

(** * The further theorems on examples *)

Ltac columns_there :=
  let c := fresh "c" in
  let Hc := fresh "Hc" in
  intros c Hc; vm_compute in Hc |- *;
  repeat (apply elem_of_cons in Hc as [->|Hc]; [repeat constructor|]);
  by apply elem_of_nil in Hc.


(** A row with its category column and the record without it. *)
Lemma format_instruction_other_keys_witness :
  format_instruction
    ({[ "instruction" := VStr "What is water?"; "context" := VStr "";
        "response" := VStr "H2O"; "category" := VStr "open_qa" ]} : Row)
    Fixture.fresh
  = format_instruction (raw_record "What is water?" "" "H2O") Fixture.fresh.
Proof. apply format_instruction_other_keys; reflexivity. Defined.

(** A record whose context is [None]. *)
Lemma format_instruction_none_context_witness :
  format_instruction
    ({[ "instruction" := VStr "What is water?"; "context" := VNone;
        "response" := VStr "H2O" ]} : Row)
    Fixture.fresh
  = (Ok ("### Context:" +:+ LF +:+ "None" +:+ LF +:+ LF +:+
         "### Question:" +:+ LF +:+ "Using only the context above, "
           +:+ "What is water?" +:+ LF +:+ LF +:+
         "### Response:" +:+ LF +:+ "H2O" +:+ LF), Fixture.fresh).
Proof. apply format_instruction_none_context; reflexivity. Defined.

(** The dataset cannot be reached: nothing is bound. *)
Lemma load_dataset_failure_is_fatal_witness :
  load_modified_dataset (L := Scenario.libs Scenario.offline) Fixture.fresh
  = (Raise (LibraryError "unreachable"), Fixture.fresh)
  ∧ cell_dataset (L := Scenario.libs Scenario.offline) Fixture.fresh
    = (Raise (LibraryError "unreachable"), Fixture.fresh)
  ∧ notebook (L := Scenario.libs Scenario.offline) Fixture.fresh
    = (Raise (LibraryError "unreachable"), Fixture.fresh).
Proof.
  apply (load_dataset_failure_is_fatal (L := Scenario.libs Scenario.offline)).
  reflexivity.
Defined.

(** A table with the columns instruction and category only: one error for
    context and response together. *)
Lemma load_modified_dataset_key_error_witness :
  load_modified_dataset
    (L := Scenario.libs (Scenario.serving Scenario.two_columns)) Fixture.fresh
  = (Raise (KeyErrorNotInIndex ["context"; "response"]), Fixture.fresh).
Proof.
  apply (load_modified_dataset_key_error
           (L := Scenario.libs (Scenario.serving Scenario.two_columns))
           Fixture.fresh Scenario.two_columns).
  - reflexivity.
  - intros Hcols.
    assert ("context" ∈ features Scenario.two_columns) as Hin
      by (apply Hcols; repeat constructor).
    cbv [Scenario.two_columns features] in Hin.
    repeat (apply elem_of_cons in Hin as [Hin|Hin]; [discriminate Hin|]).
    by apply elem_of_nil in Hin.
Defined.

(** A table of creative_writing and brainstorming rows. *)
Lemma load_modified_dataset_nothing_kept_witness :
  load_modified_dataset
    (L := Scenario.libs (Scenario.serving Scenario.other_categories)) Fixture.fresh
  = (Ok {| features := ["instruction"; "context"; "response"]; ds_rows := [] |},
     Fixture.fresh).
Proof.
  apply (load_modified_dataset_nothing_kept
           (L := Scenario.libs (Scenario.serving Scenario.other_categories))
           Fixture.fresh Scenario.other_categories).
  - reflexivity.
  - columns_there.
  - intros r Hr. cbv [Scenario.other_categories ds_rows] in Hr.
    repeat (apply elem_of_cons in Hr as [->|Hr];
            [apply (bool_decide_eq_false_1 (category_allowed _)); reflexivity|]).
    by apply elem_of_nil in Hr.
Defined.

(** The three-row table: two rows stay, in their order. *)
Lemma load_modified_dataset_sublist_witness :
  ds_rows {| features := kept_columns; ds_rows := kept_rows Fixture.dolly |}
    `sublist_of` (restrict ["instruction"; "context"; "response"]
                    <$> ds_rows Fixture.dolly)
  ∧ (length (ds_rows {| features := kept_columns; ds_rows := kept_rows Fixture.dolly |})
      ≤ length (ds_rows Fixture.dolly))%nat
  ∧ (length (ds_rows {| features := kept_columns; ds_rows := kept_rows Fixture.dolly |})
     = length (ds_rows Fixture.dolly)
     ↔ Forall category_allowed (ds_rows Fixture.dolly)).
Proof.
  apply (load_modified_dataset_sublist Fixture.fresh Fixture.dolly); reflexivity.
Defined.

(** The three-row table with a [keep] column that says False. *)
Lemma load_modified_dataset_overwrites_keep_witness :
  load_modified_dataset
    (L := Scenario.libs (Scenario.serving Scenario.with_keep_false)) Fixture.fresh
  = (Ok {| features := ["instruction"; "context"; "response"];
           ds_rows := restrict ["instruction"; "context"; "response"]
                        <$> filter category_allowed (ds_rows Fixture.dolly) |},
     Fixture.fresh).
Proof.
  apply (load_modified_dataset_overwrites_keep
           (L := Scenario.libs (Scenario.serving Scenario.with_keep_false))
           Fixture.fresh Scenario.with_keep_false (ds_rows Fixture.dolly)
           (λ _, VBool false)).
  - reflexivity.
  - columns_there.
  - reflexivity.
Defined.

(** The rows kept of the three-row table can all be formatted. *)
Lemma loaded_rows_format_witness :
  ∃ out, load_modified_dataset Fixture.fresh = (Ok out, Fixture.fresh)
    ∧ ∀ r', r' ∈ ds_rows out →
        ∃ r text, r ∈ ds_rows Fixture.dolly ∧ category_allowed r
          ∧ format_instruction r' Fixture.fresh = (Ok text, Fixture.fresh)
          ∧ format_instruction r Fixture.fresh = (Ok text, Fixture.fresh).
Proof.
  apply (loaded_rows_format Fixture.fresh Fixture.fresh Fixture.dolly).
  - reflexivity.
  - columns_there.
  - repeat constructor.
Defined.

(** The model does not load; a tokenizer bound earlier stays, left padding
    and all. *)
Lemma cell_provision_model_failure_witness :
  (cell_provision (L := Scenario.libs Scenario.no_model) Scenario.stale_state).1
  = Raise (LibraryError "model")
  ∧ g_model (cell_provision (L := Scenario.libs Scenario.no_model) Scenario.stale_state).2
    = g_model Scenario.stale_state
  ∧ g_tokenizer (cell_provision (L := Scenario.libs Scenario.no_model) Scenario.stale_state).2
    = g_tokenizer Scenario.stale_state.
Proof.
  apply (cell_provision_model_failure (L := Scenario.libs Scenario.no_model)).
  reflexivity.
Defined.

(** The tokenizer does not load; the model is bound all the same. *)
Lemma cell_provision_tokenizer_failure_witness :
  (cell_provision (L := Scenario.libs Scenario.no_tokenizer) Scenario.stale_state).1
  = Raise (LibraryError "tokenizer")
  ∧ g_model (cell_provision (L := Scenario.libs Scenario.no_tokenizer) Scenario.stale_state).2
    = Some (set_pretraining_tp (Libs := Scenario.libs Scenario.no_tokenizer) 1
              (model_id, model_kwargs, []))
  ∧ g_tokenizer (cell_provision (L := Scenario.libs Scenario.no_tokenizer) Scenario.stale_state).2
    = g_tokenizer Scenario.stale_state.
Proof.
  apply (cell_provision_tokenizer_failure (L := Scenario.libs Scenario.no_tokenizer));
    reflexivity.
Defined.

(** The adapter cell on a state with [is_peft] set. *)
Lemma cell_adapters_peft_branch_witness :
  ∃ m prepared marked,
    g_model Scenario.peft_state = Some m
    ∧ prepare_model_for_kbit_training m = Ok prepared
    ∧ mark_only_adapters_as_trainable prepared = Ok marked
    ∧ g_model (cell_adapters Scenario.peft_state).2 = Some marked
    ∧ g_peft_config (cell_adapters Scenario.peft_state).2
      = g_peft_config Scenario.peft_state.
Proof.
  apply (cell_adapters_peft_branch Scenario.peft_state); reflexivity.
Defined.

(** [get_peft_model] fails after the provisioning cell has run. *)
Lemma cell_adapters_peft_failure_witness :
  let L := Scenario.libs Scenario.no_adapter in
  let g := (cell_provision (L := L) Fixture.fresh).2 in
  (cell_adapters (L := L) g).1 = Raise (LibraryError "peft")
  ∧ g_model (cell_adapters (L := L) g).2
    = Some (model_id, model_kwargs, ["kbit"; "pretraining_tp"])
  ∧ g_peft_config (cell_adapters (L := L) g).2 = Some peft_config.
Proof.
  intros L g.
  apply (cell_adapters_peft_failure (L := L) g
           (model_id, model_kwargs, ["pretraining_tp"])
           (model_id, model_kwargs, ["kbit"; "pretraining_tp"]));
    reflexivity.
Defined.

(** The trainer cell run first of all: on a host that takes the arguments
    and on a host without bf16. *)
Lemma cell_trainer_unbound_witness :
  ((cell_trainer Fixture.fresh).1 = Raise (NameError "model")
   ∧ g_args (cell_trainer Fixture.fresh).2 = Some args
   ∧ g_max_seq_length (cell_trainer Fixture.fresh).2 = Some 2048
   ∧ g_trainer (cell_trainer Fixture.fresh).2 = g_trainer Fixture.fresh)
  ∧ cell_trainer (L := Scenario.libs Scenario.no_bf16) Fixture.fresh
    = (Raise (LibraryError "bf16"), Fixture.fresh).
Proof.
  split.
  - exact (cell_trainer_unbound Fixture.fresh "model" eq_refl).
  - exact (cell_trainer_unbound (L := Scenario.libs Scenario.no_bf16)
             Fixture.fresh "model" eq_refl).
Defined.

(** The whole notebook on the stand-in libraries. *)
Lemma notebook_wiring_witness :
  ∃ d m t prepared adapted trainer,
    load_dataset "databricks/databricks-dolly-15k" "train" = Ok d
    ∧ AutoModelForCausalLM_from_pretrained model_id model_kwargs = Ok m
    ∧ AutoTokenizer_from_pretrained model_id = Ok t
    ∧ prepare_model_for_kbit_training (set_pretraining_tp 1 m) = Ok prepared
    ∧ get_peft_model prepared peft_config = Ok adapted
    ∧ TrainingArguments_post_init args = Ok tt
    ∧ SFTTrainer {| kw_model := adapted;
                    kw_train_dataset := {| features := kept_columns;
                                           ds_rows := kept_rows d |};
                    kw_tokenizer := provisioned t;
                    kw_max_seq_length := 2048;
                    kw_packing := true;
                    kw_formatting_func := format_instruction;
                    kw_args := args |} = Ok trainer
    ∧ (notebook Fixture.fresh).2
      = mkGlobals (Some {| features := kept_columns; ds_rows := kept_rows d |})
          (Some model_id) (Some false) (Some bnb_config) (Some adapted)
          (Some (provisioned t)) (Some peft_config) (Some args) (Some 2048)
          (Some trainer).
Proof.
  apply (notebook_wiring Fixture.fresh). vm_compute. reflexivity.
Defined.

(** The whole notebook from a state left by an earlier session. *)
Lemma notebook_completes_witness :
  (notebook Scenario.stale_state).1 = Ok tt
  ∧ g_trainer (notebook Scenario.stale_state).2
    = Some (provisioned Fixture.shipped_tokenizer,
            {| features := kept_columns; ds_rows := kept_rows Fixture.dolly |})
  ∧ g_model (notebook Scenario.stale_state).2
    = Some (model_id, model_kwargs, ["lora"; "kbit"; "pretraining_tp"])
  ∧ g_dataset (notebook Scenario.stale_state).2
    = Some {| features := kept_columns; ds_rows := kept_rows Fixture.dolly |}.
Proof.
  apply (notebook_completes Scenario.stale_state Fixture.dolly
           (model_id, model_kwargs, [])
           Fixture.shipped_tokenizer
           (model_id, model_kwargs, ["kbit"; "pretraining_tp"])
           (model_id, model_kwargs, ["lora"; "kbit"; "pretraining_tp"])).
  - reflexivity.
  - columns_there.
  - reflexivity.
  - reflexivity.
  - reflexivity.
  - reflexivity.
  - reflexivity.
  - reflexivity.
Defined.
